(** * update_collection.py: the Postman collection patcher

    A shallow embedding of [modules/healthcare/utils/update_collection.py].
    The script loads a Postman collection with [json.load], walks the tree of
    folders and requests rewriting four named requests, puts a fixed folder
    in front of the top-level items and writes the file back.

    Values are the ones [json.load] builds: the script is dynamically typed,
    so every Python operation it uses is modelled on every JSON value, with
    the exception Python raises where the operand has the wrong type. *)

From Stdlib Require Import String Ascii List ZArith Bool Lia.
Import ListNotations.
Local Open Scope string_scope.

(** ** JSON values *)

(** What [json.load] returns: [None], [bool], [int], [float], [str], [list]
    and [dict]. A dict keeps its keys in insertion order, which is what
    [json.dump] writes, so it is an association list; [dict_get] and
    [dict_set] below act on the first entry of a key, and a dict built by
    [json.load] has no second one. A float is kept as its lexeme: the script
    never computes with numbers. *)
#[local] Set Warnings "-register-all".
Inductive json : Type :=
| JNull
| JBool (b : bool)
| JInt (n : Z)
| JFloat (lexeme : string)
| JStr (s : string)
| JArr (elems : list json)
| JObj (fields : list (string * json)).

Definition dict := list (string * json).

(** The induction principle Rocq derives for [json] says nothing about the
    values nested in arrays and objects; this one does. *)
Section JsonInd.
Variable P : json -> Prop.
Hypothesis HNull : P JNull.
Hypothesis HBool : forall b, P (JBool b).
Hypothesis HInt : forall n, P (JInt n).
Hypothesis HFloat : forall x, P (JFloat x).
Hypothesis HStr : forall s, P (JStr s).
Hypothesis HArr : forall l, Forall P l -> P (JArr l).
Hypothesis HObj : forall d, Forall (fun kv => P (snd kv)) d -> P (JObj d).

Fixpoint json_nested_ind (j : json) : P j :=
  match j with
  | JNull => HNull
  | JBool b => HBool b
  | JInt n => HInt n
  | JFloat x => HFloat x
  | JStr s => HStr s
  | JArr l =>
      HArr l ((fix all (l : list json) : Forall P l :=
                 match l with
                 | [] => Forall_nil P
                 | x :: r => Forall_cons x (json_nested_ind x) (all r)
                 end) l)
  | JObj d =>
      HObj d ((fix all (d : dict) : Forall (fun kv => P (snd kv)) d :=
                 match d with
                 | [] => Forall_nil _
                 | kv :: r =>
                     Forall_cons kv (json_nested_ind (snd kv)) (all r)
                 end) d)
  end.
End JsonInd.

(** ** Exceptions *)

Inductive py_error : Type :=
| TypeError
| KeyError
| AttributeError
| FileNotFoundError
| PermissionError
| JSONDecodeError
| RecursionError
| UnicodeEncodeError.

(** A Python expression either has a value or raises. *)
Inductive result (A : Type) : Type :=
| Ok (a : A)
| Raise (e : py_error).
Arguments Ok {A} a.
Arguments Raise {A} e.

Definition bind {A B : Type} (r : result A) (k : A -> result B) : result B :=
  match r with
  | Ok a => k a
  | Raise e => Raise e
  end.

Declare Scope py_scope.
Delimit Scope py_scope with py.
Notation "x <- c ;; k" := (bind c (fun x => k))
  (at level 61, c at next level, right associativity) : py_scope.
Local Open Scope py_scope.

(** ** Dicts *)

(** [d.get(k)]: the value of key [k], if any. *)
Fixpoint dict_get (k : string) (d : dict) : option json :=
  match d with
  | [] => None
  | (k', v) :: rest => if String.eqb k' k then Some v else dict_get k rest
  end.

(** [k in d] *)
Definition dict_has (k : string) (d : dict) : bool :=
  match dict_get k d with
  | Some _ => true
  | None => false
  end.

(** [d[k] = v]: a key the dict has keeps its place, a new key goes last. *)
Fixpoint dict_set (k : string) (v : json) (d : dict) : dict :=
  match d with
  | [] => [(k, v)]
  | (k', v') :: rest =>
      if String.eqb k' k then (k', v) :: rest else (k', v') :: dict_set k v rest
  end.

(** ** The Python operations the script uses *)

(** [needle in hay] on two strings: [needle] occurs in [hay]. *)
Fixpoint str_contains (needle hay : string) : bool :=
  String.prefix needle hay
  || match hay with
     | EmptyString => false
     | String _ hay' => str_contains needle hay'
     end.

(** [v == s] for a string literal [s]: only a string equals a string. *)
Definition py_eq_str (v : json) (s : string) : bool :=
  match v with
  | JStr s' => String.eqb s' s
  | _ => false
  end.

(** [s in v] for a string literal [s]: a key of a dict, an element of a
    list, a substring of a string; anything else is not a container. *)
Definition py_in (s : string) (v : json) : result bool :=
  match v with
  | JObj d => Ok (dict_has s d)
  | JArr l => Ok (existsb (fun x => py_eq_str x s) l)
  | JStr hay => Ok (str_contains s hay)
  | _ => Raise TypeError
  end.

(** [v[s]] for a string literal [s]: lists and strings take integer
    indices only, the rest is not subscriptable. *)
Definition py_getitem (v : json) (s : string) : result json :=
  match v with
  | JObj d =>
      match dict_get s d with
      | Some x => Ok x
      | None => Raise KeyError
      end
  | _ => Raise TypeError
  end.

(** [v.get(s, default)]: a method of dicts alone. *)
Definition py_get (v : json) (s : string) (default : json) : result json :=
  match v with
  | JObj d =>
      match dict_get s d with
      | Some x => Ok x
      | None => Ok default
      end
  | _ => Raise AttributeError
  end.

(** [v[s] = x] for a string literal [s], as the value [v] holds afterwards. *)
Definition py_setitem (v : json) (s : string) (x : json) : result json :=
  match v with
  | JObj d => Ok (JObj (dict_set s x d))
  | _ => Raise TypeError
  end.

(** [v.insert(0, x)]: a method of lists alone. *)
Definition py_insert0 (v : json) (x : json) : result json :=
  match v with
  | JArr l => Ok (JArr (x :: l))
  | _ => Raise AttributeError
  end.

(** [for x in v]: the elements of a list, the keys of a dict, the characters
    of a string (bytes here: the two keys the walker looks for are ASCII and
    longer than one character, so the difference cannot be seen). *)
Definition chars (s : string) : list json :=
  map (fun c => JStr (String c EmptyString)) (list_ascii_of_string s).

Definition py_iter (v : json) : result (list json) :=
  match v with
  | JArr l => Ok l
  | JObj d => Ok (map (fun kv => JStr (fst kv)) d)
  | JStr s => Ok (chars s)
  | _ => Raise TypeError
  end.

(** The loop body run on each element in turn; the first exception ends the
    loop. The elements are mutated in place, so the list comes back. *)
Definition for_each (body : json -> result json)
  : list json -> result (list json) :=
  fix loop (l : list json) : result (list json) :=
    match l with
    | [] => Ok []
    | x :: rest =>
        x' <- body x ;;
        rest' <- loop rest ;;
        Ok (x' :: rest')
    end.

(** A statement that mutates the object stored under key [k] of a dict:
    [f] is run on [d[k]] and the dict holds the outcome under the same key. *)
Definition mutate_field (k : string) (f : json -> result json)
  : dict -> result dict :=
  fix go (d : dict) : result dict :=
    match d with
    | [] => Raise KeyError
    | (k', v) :: rest =>
        if String.eqb k' k
        then v' <- f v ;; Ok ((k', v') :: rest)
        else rest' <- go rest ;; Ok ((k', v) :: rest')
    end.

(** ** String literals of the script *)

(** A Python string literal with its escapes read: [\n] is a line feed and
    [\x22] a double quote. The literals below are the script's, with every
    double quote inside one written [\x22]. *)
Fixpoint py_str (s : string) : string :=
  match s with
  | String "\" (String "n" r) => String "010" (py_str r)
  | String "\" (String "x" (String "2" (String "2" r))) =>
      String "034" (py_str r)
  | String c r => String c (py_str r)
  | EmptyString => EmptyString
  end.

Definition REGISTER_SUCCESS := "Register User - Success".
Definition REGISTER_DUPLICATE := "Register User - Duplicate ID".
Definition LOGIN_SUCCESS := "Login - Success".
Definition LOGIN_INVALID := "Login - Invalid Credentials".

Definition register_success_raw : string :=
  py_str "{\n  \x22id\x22: \x22test.user\x22,\n  \x22password\x22: \x22TestPass123!\x22,\n  \x22name\x22: \x22Test User\x22\n}".

Definition register_duplicate_raw : string :=
  py_str "{\n  \x22id\x22: \x22john.doe\x22,\n  \x22password\x22: \x22password123\x22,\n  \x22name\x22: \x22John Doe Duplicate\x22\n}".

Definition register_duplicate_description : string :=
  "Try to register with duplicate user ID (john.doe already exists in seed data)".

Definition login_success_raw : string :=
  py_str "{\n  \x22id\x22: \x22john.doe\x22,\n  \x22password\x22: \x22password123\x22\n}".

Definition login_invalid_raw : string :=
  py_str "{\n  \x22id\x22: \x22john.doe\x22,\n  \x22password\x22: \x22WrongPassword\x22\n}".

(** ** The tree walker, [update_requests] *)

(** ['body' in request and 'raw' in request['body']] *)
Definition has_body_raw (request : json) : result bool :=
  b <- py_in "body" request ;;
  if b : bool
  then body <- py_getitem request "body" ;; py_in "raw" body
  else Ok false.

(** [request['body']['raw'] = raw], as [request] is afterwards. *)
Definition set_body_raw (request : json) (raw : string) : result json :=
  body <- py_getitem request "body" ;;
  body' <- py_setitem body "raw" (JStr raw) ;;
  py_setitem request "body" body'.

(** The [if name == ... elif ...] chain of the request branch. *)
Definition patch_request (name request : json) : result json :=
  if py_eq_str name REGISTER_SUCCESS then
    c <- has_body_raw request ;;
    if c : bool then set_body_raw request register_success_raw
    else Ok request
  else if py_eq_str name REGISTER_DUPLICATE then
    c <- has_body_raw request ;;
    if c : bool then
      request' <- set_body_raw request register_duplicate_raw ;;
      py_setitem request' "description" (JStr register_duplicate_description)
    else Ok request
  else if py_eq_str name LOGIN_SUCCESS then
    c <- has_body_raw request ;;
    if c : bool then set_body_raw request login_success_raw
    else Ok request
  else if py_eq_str name LOGIN_INVALID then
    c <- has_body_raw request ;;
    if c : bool then set_body_raw request login_invalid_raw
    else Ok request
  else Ok request.

(** The loop body on an element that is not a dict. Such an element cannot
    be mutated: either a test raises, or a test holds and the subscript
    [item['item']] or [item['request']] that follows raises, or nothing
    happens. *)
Definition visit_other (item : json) : result json :=
  is_folder <- py_in "item" item ;;
  if is_folder : bool then
    _ <- py_getitem item "item" ;; Ok item
  else
    is_request <- py_in "request" item ;;
    if is_request : bool then
      _ <- py_getitem item "request" ;; Ok item
    else Ok item.

(** [update_requests items] is the function of the script and [visit item]
    the body of its loop. The script mutates the tree in place and returns
    nothing; here the tree comes back as it is after the call. A file read
    by [json.load] is a tree with no sharing, so nothing else sees the
    mutation. *)
Fixpoint update_requests (items : json) : result json :=
  match items with
  | JArr l => l' <- for_each visit l ;; Ok (JArr l')
  | _ =>
      (* keys of a dict, characters of a string: immutable elements *)
      l <- py_iter items ;;
      _ <- for_each visit_other l ;;
      Ok items
  end
with visit (item : json) : result json :=
  match item with
  | JObj d =>
      if dict_has "item" d then
        (* It's a folder, recurse *)
        d' <- mutate_field "item" update_requests d ;;
        Ok (JObj d')
      else if dict_has "request" d then
        (* It's a request *)
        request <- py_getitem item "request" ;;
        name <- py_get item "name" (JStr EmptyString) ;;
        request' <- patch_request name request ;;
        py_setitem item "request" request'
      else Ok item
  | _ => visit_other item
  end.

(** ** The folder the script adds *)

(** [seeded_data_folder], the dict literal of the script, key by key. *)
Definition seeded_data_folder : json :=
  JObj [
    ("name", JStr "Seeded Data Tests");
    ("item", JArr [
      JObj [
        ("name", JStr "Login as john.doe");
        ("event", JArr [
          JObj [
            ("listen", JStr "test");
            ("script", JObj [
              ("exec", JArr [
                JStr "var jsonData = pm.response.json();";
                JStr "if (jsonData.data && jsonData.data.token) {";
                JStr (py_str "    pm.environment.set(\x22auth_token\x22, jsonData.data.token);");
                JStr "}"
              ]);
              ("type", JStr "text/javascript")
            ])
          ]
        ]);
        ("request", JObj [
          ("method", JStr "POST");
          ("header", JArr [
            JObj [
              ("key", JStr "Content-Type");
              ("value", JStr "application/json")
            ]
          ]);
          ("body", JObj [
            ("mode", JStr "raw");
            ("raw", JStr (py_str "{\n  \x22id\x22: \x22john.doe\x22,\n  \x22password\x22: \x22password123\x22\n}"))
          ]);
          ("url", JObj [
            ("raw", JStr "{{base_url}}/api/users/_login");
            ("host", JArr [JStr "{{base_url}}"]);
            ("path", JArr [JStr "api"; JStr "users"; JStr "_login"])
          ]);
          ("description", JStr "Login with seeded user john.doe")
        ]);
        ("response", JArr [])
      ];
      JObj [
        ("name", JStr "Login as jane.smith");
        ("event", JArr [
          JObj [
            ("listen", JStr "test");
            ("script", JObj [
              ("exec", JArr [
                JStr "var jsonData = pm.response.json();";
                JStr "if (jsonData.data && jsonData.data.token) {";
                JStr (py_str "    pm.environment.set(\x22auth_token\x22, jsonData.data.token);");
                JStr "}"
              ]);
              ("type", JStr "text/javascript")
            ])
          ]
        ]);
        ("request", JObj [
          ("method", JStr "POST");
          ("header", JArr [
            JObj [
              ("key", JStr "Content-Type");
              ("value", JStr "application/json")
            ]
          ]);
          ("body", JObj [
            ("mode", JStr "raw");
            ("raw", JStr (py_str "{\n  \x22id\x22: \x22jane.smith\x22,\n  \x22password\x22: \x22SecurePass456!\x22\n}"))
          ]);
          ("url", JObj [
            ("raw", JStr "{{base_url}}/api/users/_login");
            ("host", JArr [JStr "{{base_url}}"]);
            ("path", JArr [JStr "api"; JStr "users"; JStr "_login"])
          ]);
          ("description", JStr "Login with seeded user jane.smith")
        ]);
        ("response", JArr [])
      ];
      JObj [
        ("name", JStr "Get Seeded Contact - Alice Johnson");
        ("request", JObj [
          ("method", JStr "GET");
          ("header", JArr [
            JObj [
              ("key", JStr "Authorization");
              ("value", JStr "{{auth_token}}")
            ]
          ]);
          ("url", JObj [
            ("raw", JStr "{{base_url}}/api/contacts/550e8400-e29b-41d4-a716-446655440001");
            ("host", JArr [JStr "{{base_url}}"]);
            ("path", JArr [JStr "api"; JStr "contacts"; JStr "550e8400-e29b-41d4-a716-446655440001"])
          ]);
          ("description", JStr "Get Alice Johnson (seeded contact for john.doe)")
        ]);
        ("response", JArr [])
      ];
      JObj [
        ("name", JStr "Get Seeded Contact - Bob Williams");
        ("request", JObj [
          ("method", JStr "GET");
          ("header", JArr [
            JObj [
              ("key", JStr "Authorization");
              ("value", JStr "{{auth_token}}")
            ]
          ]);
          ("url", JObj [
            ("raw", JStr "{{base_url}}/api/contacts/550e8400-e29b-41d4-a716-446655440002");
            ("host", JArr [JStr "{{base_url}}"]);
            ("path", JArr [JStr "api"; JStr "contacts"; JStr "550e8400-e29b-41d4-a716-446655440002"])
          ]);
          ("description", JStr "Get Bob Williams (seeded contact for john.doe)")
        ]);
        ("response", JArr [])
      ];
      JObj [
        ("name", JStr "Get Seeded Contact - Charlie Brown");
        ("request", JObj [
          ("method", JStr "GET");
          ("header", JArr [
            JObj [
              ("key", JStr "Authorization");
              ("value", JStr "{{auth_token}}")
            ]
          ]);
          ("url", JObj [
            ("raw", JStr "{{base_url}}/api/contacts/550e8400-e29b-41d4-a716-446655440003");
            ("host", JArr [JStr "{{base_url}}"]);
            ("path", JArr [JStr "api"; JStr "contacts"; JStr "550e8400-e29b-41d4-a716-446655440003"])
          ]);
          ("description", JStr "Get Charlie Brown (seeded contact for john.doe)")
        ]);
        ("response", JArr [])
      ];
      JObj [
        ("name", JStr "List Addresses for Alice Johnson");
        ("request", JObj [
          ("method", JStr "GET");
          ("header", JArr [
            JObj [
              ("key", JStr "Authorization");
              ("value", JStr "{{auth_token}}")
            ]
          ]);
          ("url", JObj [
            ("raw", JStr "{{base_url}}/api/contacts/550e8400-e29b-41d4-a716-446655440001/addresses");
            ("host", JArr [JStr "{{base_url}}"]);
            ("path", JArr [JStr "api"; JStr "contacts"; JStr "550e8400-e29b-41d4-a716-446655440001"; JStr "addresses"])
          ]);
          ("description", JStr "List all addresses for Alice Johnson (should return 2 addresses)")
        ]);
        ("response", JArr [])
      ];
      JObj [
        ("name", JStr "Get Seeded Address - Alice's NY Address");
        ("request", JObj [
          ("method", JStr "GET");
          ("header", JArr [
            JObj [
              ("key", JStr "Authorization");
              ("value", JStr "{{auth_token}}")
            ]
          ]);
          ("url", JObj [
            ("raw", JStr "{{base_url}}/api/contacts/550e8400-e29b-41d4-a716-446655440001/addresses/660e8400-e29b-41d4-a716-446655440001");
            ("host", JArr [JStr "{{base_url}}"]);
            ("path", JArr [JStr "api"; JStr "contacts"; JStr "550e8400-e29b-41d4-a716-446655440001"; JStr "addresses"; JStr "660e8400-e29b-41d4-a716-446655440001"])
          ]);
          ("description", JStr "Get Alice's NY address (123 Main Street, New York)")
        ]);
        ("response", JArr [])
      ];
      JObj [
        ("name", JStr "Update Seeded Contact - Alice Johnson");
        ("request", JObj [
          ("method", JStr "PUT");
          ("header", JArr [
            JObj [
              ("key", JStr "Authorization");
              ("value", JStr "{{auth_token}}")
            ];
            JObj [
              ("key", JStr "Content-Type");
              ("value", JStr "application/json")
            ]
          ]);
          ("body", JObj [
            ("mode", JStr "raw");
            ("raw", JStr (py_str "{\n  \x22first_name\x22: \x22Alice Updated\x22,\n  \x22last_name\x22: \x22Johnson Updated\x22,\n  \x22email\x22: \x22alice.updated@example.com\x22,\n  \x22phone\x22: \x22+1-555-9999\x22\n}"))
          ]);
          ("url", JObj [
            ("raw", JStr "{{base_url}}/api/contacts/550e8400-e29b-41d4-a716-446655440001");
            ("host", JArr [JStr "{{base_url}}"]);
            ("path", JArr [JStr "api"; JStr "contacts"; JStr "550e8400-e29b-41d4-a716-446655440001"])
          ]);
          ("description", JStr "Update Alice Johnson's information")
        ]);
        ("response", JArr [])
      ]
    ])
  ].

(** ** The script from the parsed collection to the value it dumps *)

(** Lines 40 to 246: walk [collection['item']], then put the folder first.
    [collection['item']] is the list the walker mutated, so the value that
    [insert] extends is the walker's. *)
Definition transform (collection : json) : result json :=
  items <- py_getitem collection "item" ;;
  items' <- update_requests items ;;
  items'' <- py_insert0 items' seeded_data_folder ;;
  py_setitem collection "item" items''.

(** ** The script as a process *)

(** The one path the script opens. *)
Definition COLLECTION_PATH : string :=
  "modules/healthcare/Evero_Healthcare_API.postman_collection.json".

(** What the file system holds at that path. *)
Inductive file : Type :=
| Absent
| Present (readable writable : bool) (content : string).

(** [open(path, 'r')] and [f.read()] *)
Definition read_file (f : file) : result string :=
  match f with
  | Absent => Raise FileNotFoundError
  | Present true _ content => Ok content
  | Present false _ _ => Raise PermissionError
  end.

(** [open(path, 'w')] and the writes that follow: the file holds the new
    text. Reached only with a file that was read, so with a file present. *)
Definition write_file (f : file) (content : string) : result file :=
  match f with
  | Absent => Ok (Present true true content)
  | Present r true _ => Ok (Present r true content)
  | Present _ false _ => Raise PermissionError
  end.

(** The four lines the script prints at the end. *)
Definition status_lines : list string :=
  [ "✅ Postman collection updated successfully!";
    "✅ Added 'Seeded Data Tests' folder with 8 pre-configured tests";
    "✅ Updated login credentials to match seeded passwords";
    "✅ Register User now uses test.user instead of john.doe" ].

(** How a run ends: the file afterwards, what was printed, and the exception
    that ended the run, if one did. *)
Record outcome : Type := {
  file_after : file;
  stdout : list string;
  raised : option py_error
}.

Section Script.
(** The two functions of Python's [json] module the script calls, on the
    text of a file: [json.load] (no value for text that is not JSON) and
    [json.dump] with [indent='\t']. *)
Variable json_loads : string -> option json.
Variable json_dumps : json -> string.

Definition json_load (text : string) : result json :=
  match json_loads text with
  | Some v => Ok v
  | None => Raise JSONDecodeError
  end.

(** The script, top to bottom. The file is written by the last step alone,
    so a run that raises before it leaves the file as it was. *)
Definition run (f : file) : outcome :=
  let crash e := {| file_after := f; stdout := []; raised := Some e |} in
  match read_file f with
  | Raise e => crash e
  | Ok text =>
      match json_load text with
      | Raise e => crash e
      | Ok collection =>
          match transform collection with
          | Raise e => crash e
          | Ok collection' =>
              match write_file f (json_dumps collection') with
              | Raise e => crash e
              | Ok f' =>
                  {| file_after := f'; stdout := status_lines;
                     raised := None |}
              end
          end
      end
  end.
End Script.

(** ** Reading a collection *)

(** [item.get('name', '')], the name the walker compares. *)
Definition item_name (d : dict) : json :=
  match dict_get "name" d with
  | Some v => v
  | None => JStr EmptyString
  end.

(** The four names of the [if] chain. *)
Definition target_names : list string :=
  [REGISTER_SUCCESS; REGISTER_DUPLICATE; LOGIN_SUCCESS; LOGIN_INVALID].

Definition is_target (name : json) : bool :=
  existsb (py_eq_str name) target_names.

(** The walker's test for a request, on a dict: the [elif] is reached by an
    item that has no key [item], and holds of one that has a key
    [request]. *)
Definition is_request (d : dict) : bool :=
  negb (dict_has "item" d) && dict_has "request" d.

(** The items of a collection, or of a folder: the list under [item]. *)
Definition items_of (doc : json) : option (list json) :=
  match doc with
  | JObj d =>
      match dict_get "item" d with
      | Some (JArr l) => Some l
      | _ => None
      end
  | _ => None
  end.

(** The item a path of indices leads to: [[i]] is [items[i]], and [i :: p]
    follows [p] in the nested items of the folder [items[i]]. *)
Fixpoint item_at (p : list nat) (items : list json) : option json :=
  match p with
  | [] => None
  | i :: p' =>
      match nth_error items i with
      | None => None
      | Some it =>
          match p' with
          | [] => Some it
          | _ :: _ =>
              match items_of it with
              | Some nested => item_at p' nested
              | None => None
              end
          end
      end
  end.

(** The same place once a folder was put in front of the top-level items. *)
Definition after_insert (p : list nat) : list nat :=
  match p with
  | [] => []
  | i :: p' => S i :: p'
  end.

Definition doc_item_at (p : list nat) (doc : json) : option json :=
  match items_of doc with
  | Some items => item_at p items
  | None => None
  end.

(** [request['body']['raw']] and [request['description']] of an item. *)
Definition request_of (item : json) : option json :=
  match item with
  | JObj d => dict_get "request" d
  | _ => None
  end.

Definition body_raw (request : json) : option json :=
  match request with
  | JObj r =>
      match dict_get "body" r with
      | Some (JObj b) => dict_get "raw" b
      | _ => None
      end
  | _ => None
  end.

Definition description (request : json) : option json :=
  match request with
  | JObj r => dict_get "description" r
  | _ => None
  end.

(** A collection of the shape the specification describes: every item is an
    object; the nested items of a folder are a list of such items; the
    request of a request item is an object whose body, if it has one, is an
    object. Names are not asked for. *)
Definition request_shape (d : dict) : bool :=
  match dict_get "request" d with
  | None => true
  | Some (JObj r) =>
      match dict_get "body" r with
      | None | Some (JObj _) => true
      | Some _ => false
      end
  | Some _ => false
  end.

Definition field_or (k : string) (f : json -> bool) (otherwise : bool)
  : dict -> bool :=
  fix go (d : dict) : bool :=
    match d with
    | [] => otherwise
    | (k', v) :: rest => if String.eqb k' k then f v else go rest
    end.

Fixpoint well_formed_item (item : json) : bool :=
  match item with
  | JObj d =>
      field_or "item"
        (fun nested =>
           match nested with
           | JArr l => forallb well_formed_item l
           | _ => false
           end)
        (request_shape d) d
  | _ => false
  end.

Definition well_formed_document (doc : json) : bool :=
  match items_of doc with
  | Some items => forallb well_formed_item items
  | None => false
  end.

(** The name and the event of an item. *)
Definition name_of (item : json) : json :=
  match item with
  | JObj d => item_name d
  | _ => JStr EmptyString
  end.

Definition event_of (item : json) : option json :=
  match item with
  | JObj d => dict_get "event" d
  | _ => None
  end.

(** The body branch the four names share: the test, then the assignment
    (see [patch_request_cases]). *)
Definition patch_body (request : json) (raw : string) : result json :=
  c <- has_body_raw request ;;
  if c : bool then set_body_raw request raw else Ok request.

(** ** Sample collections *)

(** A small collection with a folder of four requests and a request next to
    it: the two register requests with a raw body, a login request with no
    body, and two requests the script has no business with. *)
Definition sample_collection : json :=
  JObj [
    ("info", JObj [("name", JStr "Evero Healthcare API")]);
    ("item", JArr [
      JObj [
        ("name", JStr "Users");
        ("item", JArr [
          JObj [
            ("name", JStr "Register User - Success");
            ("request", JObj [
              ("method", JStr "POST");
              ("body", JObj [("mode", JStr "raw"); ("raw", JStr "{}")])
            ]);
            ("response", JArr [])
          ];
          JObj [
            ("name", JStr "Register User - Duplicate ID");
            ("request", JObj [
              ("method", JStr "POST");
              ("body", JObj [("mode", JStr "raw"); ("raw", JStr "{}")]);
              ("description", JStr "Register twice")
            ]);
            ("response", JArr [])
          ];
          JObj [
            ("name", JStr "Login - Success");
            ("request", JObj [("method", JStr "POST")]);
            ("response", JArr [])
          ];
          JObj [
            ("name", JStr "Get Current User");
            ("request", JObj [
              ("method", JStr "GET");
              ("body", JObj [("mode", JStr "raw"); ("raw", JStr "{}")])
            ]);
            ("response", JArr [])
          ]
        ])
      ];
      JObj [
        ("name", JStr "Health Check");
        ("request", JObj [("method", JStr "GET")]);
        ("response", JArr [])
      ]
    ])
  ].

(** A collection whose one request is named like the duplicate registration
    and has a description but no body. *)
Definition duplicate_without_body : json :=
  JObj [
    ("item", JArr [
      JObj [
        ("name", JStr "Register User - Duplicate ID");
        ("request", JObj [
          ("method", JStr "POST");
          ("description", JStr "Register twice")
        ]);
        ("response", JArr [])
      ]
    ])
  ].

(** An item with nested items and a request of its own, named like a login
    request the script rewrites. *)
Definition folder_with_request : dict :=
  [ ("name", JStr "Login - Success");
    ("item", JArr [
       JObj [
         ("name", JStr "Login - Success");
         ("request", JObj [("body", JObj [("raw", JStr "{}")])])
       ]
     ]);
    ("request", JObj [("body", JObj [("raw", JStr "{}")])]) ].

(** The event the two login items of the added folder carry: a script run
    on the response ([listen] is [test]) that reads [data.token] from the
    JSON of the response and sets [auth_token] in the environment. *)
Definition token_capture_event : json :=
  JArr [
    JObj [
      ("listen", JStr "test");
      ("script", JObj [
        ("exec", JArr [
          JStr "var jsonData = pm.response.json();";
          JStr "if (jsonData.data && jsonData.data.token) {";
          JStr (py_str "    pm.environment.set(\x22auth_token\x22, jsonData.data.token);");
          JStr "}"
        ]);
        ("type", JStr "text/javascript")
      ])
    ]
  ].

(** A stand-in for [json.load] and [json.dump] that knows two texts. *)
Definition sample_loads (text : string) : option json :=
  if String.eqb text "sample" then Some sample_collection
  else if String.eqb text "null" then Some JNull
  else None.

Definition sample_dumps (v : json) : string :=
  match v with
  | JNull => "null"
  | _ => "sample, updated"
  end.

(** ** More readings of the script *)

(** [None], booleans and numbers: the values Python can neither iterate nor
    search with [in]. *)
Definition is_scalar (v : json) : bool :=
  match v with
  | JNull | JBool _ | JInt _ | JFloat _ => true
  | _ => false
  end.

(** The keys of a dict, in the order [json.dump] writes them. *)
Definition keys (d : dict) : list string := map fst d.

(** The body text the [if] chain assigns under each of the four names. *)
Definition expected_raw (name : json) : option string :=
  if py_eq_str name REGISTER_SUCCESS then Some register_success_raw
  else if py_eq_str name REGISTER_DUPLICATE then Some register_duplicate_raw
  else if py_eq_str name LOGIN_SUCCESS then Some login_success_raw
  else if py_eq_str name LOGIN_INVALID then Some login_invalid_raw
  else None.

(** The three names under which the script assigns the body text and
    nothing else. *)
Definition raw_only_patches : list (string * string) :=
  [ (REGISTER_SUCCESS, register_success_raw);
    (LOGIN_SUCCESS, login_success_raw);
    (LOGIN_INVALID, login_invalid_raw) ].

(** A string in which one of the walker's two tests finds its key. *)
Definition mentions_walker_key (k : string) : bool :=
  str_contains "item" k || str_contains "request" k.

(** A collection of one login request with a raw body and a description. *)
Definition login_collection : json :=
  JObj [
    ("item", JArr [
      JObj [
        ("name", JStr "Login - Invalid Credentials");
        ("request", JObj [
          ("method", JStr "POST");
          ("body", JObj [("mode", JStr "raw"); ("raw", JStr "{}")]);
          ("description", JStr "Wrong password")
        ])
      ]
    ])
  ].


(** ** The interpreter's limits *)

(** The loop body of the walker, with the call at line 12 as [recurse]. *)
Definition visit_with (recurse : json -> result json) (item : json)
  : result json :=
  match item with
  | JObj d =>
      if dict_has "item" d then
        d' <- mutate_field "item" recurse d ;;
        Ok (JObj d')
      else if dict_has "request" d then
        request <- py_getitem item "request" ;;
        name <- py_get item "name" (JStr EmptyString) ;;
        request' <- patch_request name request ;;
        py_setitem item "request" request'
      else Ok item
  | _ => visit_other item
  end.

(** The walker under Python's recursion limit. [update_requests] calls
    itself once per level of folders and every call takes a frame;
    [limit] is the number of frames of [update_requests] the interpreter
    still grants, and the call that finds none raises [RecursionError]
    before its body runs. Nothing else in the body enters a Python
    frame. *)
Fixpoint update_requests_within (limit : nat) (items : json) : result json :=
  match limit with
  | 0 => Raise RecursionError
  | S limit' =>
      match items with
      | JArr l =>
          l' <- for_each (visit_with (update_requests_within limit')) l ;;
          Ok (JArr l')
      | _ =>
          l <- py_iter items ;;
          _ <- for_each visit_other l ;;
          Ok items
      end
  end.

(** The frames a walk can need: one for the call, and under a list the
    most that the value under [item] of one of its dicts needs. *)
Definition field_nat (k : string) (f : json -> nat) : dict -> nat :=
  fix go (d : dict) : nat :=
    match d with
    | [] => 0
    | (k', v) :: rest => if String.eqb k' k then f v else go rest
    end.

Fixpoint nesting (items : json) : nat :=
  match items with
  | JArr l => S (list_max (map item_nesting l))
  | _ => 1
  end
with item_nesting (item : json) : nat :=
  match item with
  | JObj d => field_nat "item" nesting d
  | _ => 0
  end.

(** Lines 40 to 246 under the recursion limit. *)
Definition transform_within (limit : nat) (collection : json) : result json :=
  items <- py_getitem collection "item" ;;
  items' <- update_requests_within limit items ;;
  items'' <- py_insert0 items' seeded_data_folder ;;
  py_setitem collection "item" items''.

(** [print] of the four status lines: each starts with the check mark
    U+2705, so on a standard output whose encoding has no such character
    the first [print] raises and nothing is written. *)
Definition print_status (stdout_encodes : bool) : result (list string) :=
  if stdout_encodes then Ok status_lines else Raise UnicodeEncodeError.

Section ScriptWithin.
(** The run with what can go wrong after the load as well. [load] is
    [json.load] on the text of the file, with whatever it raises. [dump] is
    [json.dump] with [indent='\t']: the text that reaches the file, and
    the exception that cut it short, if one did. [limit] is the recursion
    limit as in [update_requests_within], and [stdout_encodes] says whether
    standard output can encode the check mark. *)
Variable load : string -> result json.
Variable dump : json -> string * option py_error.
Variable limit : nat.
Variable stdout_encodes : bool.

Definition run_within (f : file) : outcome :=
  let crash f' e := {| file_after := f'; stdout := []; raised := Some e |} in
  match read_file f with
  | Raise e => crash f e
  | Ok text =>
      match load text with
      | Raise e => crash f e
      | Ok collection =>
          match transform_within limit collection with
          | Raise e => crash f e
          | Ok collection' =>
              (* [open(path, 'w')] empties the file, the dump fills it *)
              match write_file f (fst (dump collection')) with
              | Raise e => crash f e
              | Ok f' =>
                  match snd (dump collection') with
                  | Some e => crash f' e
                  | None =>
                      match print_status stdout_encodes with
                      | Raise e => crash f' e
                      | Ok lines =>
                          {| file_after := f'; stdout := lines;
                             raised := None |}
                      end
                  end
              end
          end
      end
  end.
End ScriptWithin.


(** The stand-ins above in the shape [run_within] takes. *)
Definition sample_load (text : string) : result json :=
  match sample_loads text with
  | Some v => Ok v
  | None => Raise JSONDecodeError
  end.

Definition sample_dump (v : json) : string * option py_error :=
  (sample_dumps v, None).

(** * Properties *)

(** ** The error monad *)

Lemma bind_Ok {A B : Type} (r : result A) (k : A -> result B) (b : B) :
  bind r k = Ok b -> exists a, r = Ok a /\ k a = Ok b.
Proof. destruct r as [a|e]; simpl; [eauto | discriminate]. Qed.

Ltac bind_inv H :=
  let a := fresh "a" in
  let Ha := fresh "Ha" in
  apply bind_Ok in H; destruct H as (a & Ha & H).

(** ** Dicts *)

Lemma dict_get_set_same (k : string) (v : json) (d : dict) :
  dict_get k (dict_set k v d) = Some v.
Proof.
  induction d as [|[k' v'] d IH]; simpl.
  - now rewrite String.eqb_refl.
  - destruct (String.eqb k' k) eqn:E; simpl; now rewrite E.
Qed.

Lemma dict_get_set_other (k k' : string) (v : json) (d : dict) :
  k <> k' -> dict_get k' (dict_set k v d) = dict_get k' d.
Proof.
  intros Hne. induction d as [|[k0 v0] d IH]; simpl.
  - destruct (String.eqb k k') eqn:E; [|reflexivity].
    apply String.eqb_eq in E. contradiction.
  - destruct (String.eqb k0 k) eqn:E; simpl.
    + apply String.eqb_eq in E. subst k0.
      destruct (String.eqb k k') eqn:E'; [|reflexivity].
      apply String.eqb_eq in E'. contradiction.
    + now rewrite IH.
Qed.

Lemma dict_set_get (k : string) (v : json) (d : dict) :
  dict_get k d = Some v -> dict_set k v d = d.
Proof.
  induction d as [|[k' v'] d IH]; simpl; [discriminate|].
  destruct (String.eqb k' k) eqn:E.
  - now intros [= ->].
  - intros H. now rewrite IH.
Qed.

Lemma dict_set_set (k : string) (v : json) (d : dict) :
  dict_set k v (dict_set k v d) = dict_set k v d.
Proof. apply dict_set_get, dict_get_set_same. Qed.

Lemma dict_has_set_other (k k' : string) (v : json) (d : dict) :
  k <> k' -> dict_has k' (dict_set k v d) = dict_has k' d.
Proof. intros H. unfold dict_has. now rewrite dict_get_set_other. Qed.

Lemma dict_has_false (k : string) (d : dict) :
  dict_has k d = false <-> dict_get k d = None.
Proof. unfold dict_has. destruct (dict_get k d); split; congruence. Qed.

Lemma dict_has_true (k : string) (d : dict) :
  dict_has k d = true <-> exists v, dict_get k d = Some v.
Proof.
  unfold dict_has. destruct (dict_get k d); split; eauto; try congruence.
  now intros [v [=]].
Qed.

Lemma mutate_field_eq (k : string) (f : json -> result json) (d : dict) :
  mutate_field k f d =
  match dict_get k d with
  | Some v => v' <- f v ;; Ok (dict_set k v' d)
  | None => Raise KeyError
  end.
Proof.
  induction d as [|[k' v] d IH]; simpl; [reflexivity|].
  destruct (String.eqb k' k); [reflexivity|].
  rewrite IH. destruct (dict_get k d) as [v0|]; [|reflexivity].
  simpl. now destruct (f v0).
Qed.

Lemma field_or_eq (k : string) (f : json -> bool) (b : bool) (d : dict) :
  field_or k f b d =
  match dict_get k d with
  | Some v => f v
  | None => b
  end.
Proof.
  induction d as [|[k' v] d IH]; simpl; [reflexivity|].
  now destruct (String.eqb k' k).
Qed.

(** ** Loops *)

Lemma for_each_Forall2 (body : json -> result json) (l l' : list json) :
  for_each body l = Ok l' <-> Forall2 (fun x x' => body x = Ok x') l l'.
Proof.
  revert l'. induction l as [|x l IH]; intros l'; simpl.
  - split.
    + intros [= <-]. constructor.
    + intros H. now inversion H.
  - split.
    + intros H. bind_inv H. bind_inv H. injection H as <-.
      constructor; [assumption | now apply IH].
    + intros H. inversion H as [|? x' ? r' Hx Hr]; subst.
      rewrite Hx. simpl. apply IH in Hr. now rewrite Hr.
Qed.

Lemma for_each_length (body : json -> result json) (l l' : list json) :
  for_each body l = Ok l' -> length l' = length l.
Proof.
  intros H. apply for_each_Forall2 in H.
  symmetry. eapply Forall2_length, H.
Qed.

Lemma for_each_total (body : json -> result json) (l : list json) :
  Forall (fun x => exists x', body x = Ok x') l ->
  exists l', for_each body l = Ok l'.
Proof.
  induction 1 as [|x l [x' Hx] _ [l' Hl]]; simpl; [eauto|].
  rewrite Hx. simpl. rewrite Hl. simpl. eauto.
Qed.

Lemma for_each_fixed (body : json -> result json) (l : list json) :
  Forall (fun x => body x = Ok x) l -> for_each body l = Ok l.
Proof.
  intros H. apply for_each_Forall2.
  induction H; constructor; assumption.
Qed.

Lemma Forall2_nth_error {A B : Type} (R : A -> B -> Prop)
      (l : list A) (l' : list B) (i : nat) (x : A) :
  Forall2 R l l' -> nth_error l i = Some x ->
  exists x', nth_error l' i = Some x' /\ R x x'.
Proof.
  intros H. revert i. induction H as [|a b l l' Hab _ IH]; intros [|i]; simpl;
    try discriminate.
  - intros [= <-]. eauto.
  - apply IH.
Qed.

(** ** The walker, case by case *)

Lemma update_requests_list (l : list json) :
  update_requests (JArr l) = (l' <- for_each visit l ;; Ok (JArr l')).
Proof. reflexivity. Qed.

Lemma visit_dict (d : dict) :
  visit (JObj d) =
  if dict_has "item" d then
    match dict_get "item" d with
    | Some v => v' <- update_requests v ;; Ok (JObj (dict_set "item" v' d))
    | None => Raise KeyError
    end
  else if dict_has "request" d then
    request <- py_getitem (JObj d) "request" ;;
    request' <- patch_request (item_name d) request ;;
    Ok (JObj (dict_set "request" request' d))
  else Ok (JObj d).
Proof.
  change (visit (JObj d)) with
    (if dict_has "item" d then
       d' <- mutate_field "item" update_requests d ;; Ok (JObj d')
     else if dict_has "request" d then
       request <- py_getitem (JObj d) "request" ;;
       name <- py_get (JObj d) "name" (JStr EmptyString) ;;
       request' <- patch_request name request ;;
       py_setitem (JObj d) "request" request'
     else Ok (JObj d)).
  rewrite mutate_field_eq.
  destruct (dict_has "item" d).
  - destruct (dict_get "item" d) as [v|]; [|reflexivity].
    simpl. now destruct (update_requests v).
  - destruct (dict_has "request" d); [|reflexivity].
    unfold py_getitem, py_get, item_name.
    destruct (dict_get "request" d); [|reflexivity].
    simpl. now destruct (dict_get "name" d).
Qed.

Lemma visit_folder (d : dict) (v : json) :
  dict_get "item" d = Some v ->
  visit (JObj d) = (v' <- update_requests v ;; Ok (JObj (dict_set "item" v' d))).
Proof.
  intros H. rewrite visit_dict. unfold dict_has. now rewrite H.
Qed.

Lemma visit_request (d : dict) (request : json) :
  dict_get "item" d = None ->
  dict_get "request" d = Some request ->
  visit (JObj d) =
  (request' <- patch_request (item_name d) request ;;
   Ok (JObj (dict_set "request" request' d))).
Proof.
  intros Hi Hr. rewrite visit_dict. unfold dict_has, py_getitem.
  now rewrite Hi, Hr.
Qed.

Lemma visit_plain (d : dict) :
  dict_get "item" d = None -> dict_get "request" d = None ->
  visit (JObj d) = Ok (JObj d).
Proof.
  intros Hi Hr. rewrite visit_dict. unfold dict_has. now rewrite Hi, Hr.
Qed.

Lemma visit_other_same (item item' : json) :
  visit_other item = Ok item' -> item' = item.
Proof.
  unfold visit_other. intros H. bind_inv H. destruct a.
  - bind_inv H. congruence.
  - bind_inv H. destruct a.
    + bind_inv H. congruence.
    + congruence.
Qed.

(** ** The request branch *)

Lemma patch_request_other (name request : json) :
  is_target name = false -> patch_request name request = Ok request.
Proof.
  unfold is_target, target_names. simpl. intros H.
  repeat (apply orb_false_elim in H; destruct H as [? H]).
  unfold patch_request.
  repeat match goal with E : py_eq_str _ _ = false |- _ => rewrite E; clear E end.
  reflexivity.
Qed.

Lemma has_body_raw_no_body (r : dict) :
  dict_get "body" r = None -> has_body_raw (JObj r) = Ok false.
Proof. intros H. unfold has_body_raw. simpl. unfold dict_has. now rewrite H. Qed.

Lemma has_body_raw_body (r b : dict) :
  dict_get "body" r = Some (JObj b) ->
  has_body_raw (JObj r) = Ok (dict_has "raw" b).
Proof. intros H. unfold has_body_raw. simpl. unfold dict_has at 1. now rewrite H. Qed.

Lemma set_body_raw_body (r b : dict) (raw : string) :
  dict_get "body" r = Some (JObj b) ->
  set_body_raw (JObj r) raw =
  Ok (JObj (dict_set "body" (JObj (dict_set "raw" (JStr raw) b)) r)).
Proof. intros H. unfold set_body_raw. simpl. now rewrite H. Qed.

(** The assignment succeeds only on a request dict whose body is a dict. *)
Lemma set_body_raw_inv (request request' : json) (raw : string) :
  set_body_raw request raw = Ok request' ->
  exists r b,
    request = JObj r /\ dict_get "body" r = Some (JObj b) /\
    request' = JObj (dict_set "body" (JObj (dict_set "raw" (JStr raw) b)) r).
Proof.
  unfold set_body_raw. intros H.
  destruct request as [| | | | | |r]; try discriminate.
  simpl in H. destruct (dict_get "body" r) as [body|] eqn:Hb; [|discriminate].
  simpl in H. destruct body as [| | | | | |b]; try discriminate.
  simpl in H. injection H as <-. eauto.
Qed.

(** A request that holds [raw] already is not changed by the assignment. *)
Lemma set_body_raw_again (r b : dict) (raw : string) :
  dict_get "body" r = Some (JObj b) ->
  dict_get "raw" b = Some (JStr raw) ->
  has_body_raw (JObj r) = Ok true /\ set_body_raw (JObj r) raw = Ok (JObj r).
Proof.
  intros Hb Hraw. split.
  - rewrite (has_body_raw_body _ _ Hb). unfold dict_has. now rewrite Hraw.
  - rewrite (set_body_raw_body _ _ _ Hb).
    rewrite (dict_set_get _ _ _ Hraw). now rewrite (dict_set_get _ _ _ Hb).
Qed.

Lemma patch_body_again (request request' : json) (raw : string) :
  patch_body request raw = Ok request' -> patch_body request' raw = Ok request'.
Proof.
  unfold patch_body. intros H. bind_inv H. destruct a.
  - apply set_body_raw_inv in H. destruct H as (r & b & -> & Hb & ->).
    destruct (set_body_raw_again
                (dict_set "body" (JObj (dict_set "raw" (JStr raw) b)) r)
                (dict_set "raw" (JStr raw) b) raw) as [H1 H2].
    + apply dict_get_set_same.
    + apply dict_get_set_same.
    + rewrite H1. simpl. exact H2.
  - injection H as <-. now rewrite Ha.
Qed.

Lemma patch_request_cases (name request : json) :
  patch_request name request =
  if py_eq_str name REGISTER_SUCCESS then patch_body request register_success_raw
  else if py_eq_str name REGISTER_DUPLICATE then
    c <- has_body_raw request ;;
    if c : bool then
      request' <- set_body_raw request register_duplicate_raw ;;
      py_setitem request' "description" (JStr register_duplicate_description)
    else Ok request
  else if py_eq_str name LOGIN_SUCCESS then patch_body request login_success_raw
  else if py_eq_str name LOGIN_INVALID then patch_body request login_invalid_raw
  else Ok request.
Proof. reflexivity. Qed.

Lemma patch_request_again (name request request' : json) :
  patch_request name request = Ok request' ->
  patch_request name request' = Ok request'.
Proof.
  rewrite !patch_request_cases.
  destruct (py_eq_str name REGISTER_SUCCESS); [apply patch_body_again|].
  destruct (py_eq_str name REGISTER_DUPLICATE).
  - intros H. bind_inv H. destruct a.
    + bind_inv H. apply set_body_raw_inv in Ha0.
      destruct Ha0 as (r & b & -> & Hb & ->). simpl in H. injection H as <-.
      set (body' := JObj (dict_set "raw" (JStr register_duplicate_raw) b)).
      set (desc := JStr register_duplicate_description).
      destruct (set_body_raw_again
                  (dict_set "description" desc (dict_set "body" body' r))
                  (dict_set "raw" (JStr register_duplicate_raw) b)
                  register_duplicate_raw) as [H1 H2].
      * rewrite dict_get_set_other by discriminate. apply dict_get_set_same.
      * apply dict_get_set_same.
      * rewrite H1. simpl. rewrite H2. simpl. now rewrite dict_set_set.
    + injection H as <-. now rewrite Ha.
  - destruct (py_eq_str name LOGIN_SUCCESS); [apply patch_body_again|].
    destruct (py_eq_str name LOGIN_INVALID); [apply patch_body_again|].
    trivial.
Qed.

(** ** What the walker returns *)

Lemma update_requests_other (items items' : json) :
  (forall l, items <> JArr l) ->
  update_requests items = Ok items' -> items' = items.
Proof.
  intros Hl H. destruct items; try discriminate.
  - change (update_requests (JStr s))
      with (l <- py_iter (JStr s) ;; _ <- for_each visit_other l ;; Ok (JStr s)) in H.
    bind_inv H. bind_inv H. congruence.
  - now destruct (Hl elems).
  - change (update_requests (JObj fields))
      with (l <- py_iter (JObj fields) ;;
            _ <- for_each visit_other l ;; Ok (JObj fields)) in H.
    bind_inv H. bind_inv H. congruence.
Qed.

Lemma update_requests_list_inv (l : list json) (items' : json) :
  update_requests (JArr l) = Ok items' ->
  exists l', items' = JArr l' /\ for_each visit l = Ok l'.
Proof.
  rewrite update_requests_list. intros H. bind_inv H.
  injection H as <-. eauto.
Qed.

Lemma visit_not_dict (item item' : json) :
  (forall d, item <> JObj d) -> visit item = Ok item' -> item' = item.
Proof.
  intros Hd H. destruct item; try (now apply visit_other_same).
  now destruct (Hd fields).
Qed.

Lemma dict_get_Forall (P : json -> Prop) (k : string) (d : dict) (v : json) :
  Forall (fun kv => P (snd kv)) d -> dict_get k d = Some v -> P v.
Proof.
  induction 1 as [|[k' v'] d Hv _ IH]; simpl; [discriminate|].
  destruct (String.eqb k' k); [now intros [= <-] | exact IH].
Qed.

(** Walking a tree the walker has walked changes nothing and cannot fail:
    the patched requests hold the literals already. *)
Lemma walker_again (j : json) :
  (forall j', update_requests j = Ok j' -> update_requests j' = Ok j') /\
  (forall j', visit j = Ok j' -> visit j' = Ok j').
Proof.
  induction j as [| | | | |l IH|d IH] using json_nested_ind;
    try (split; intros j' H; pose proof H as E;
         [ apply update_requests_other in E | apply visit_not_dict in E ];
         solve [ subst j'; exact H | intros ? [=] ]).
  - split; intros j' H.
    + apply update_requests_list_inv in H. destruct H as (l' & -> & H).
      rewrite update_requests_list.
      apply for_each_Forall2 in H.
      rewrite for_each_fixed; [reflexivity|].
      induction H as [|x x' l l' Hx _ IHl]; constructor.
      * inversion IH as [|? ? [_ Hv] _]; subst. now apply Hv.
      * apply IHl. now inversion IH.
    + pose proof H as E. apply visit_not_dict in E; [|intros ? [=]].
      subst j'. exact H.
  - split; intros j' H.
    + pose proof H as E. apply update_requests_other in E; [|intros ? [=]].
      subst j'. exact H.
    + destruct (dict_get "item" d) as [v|] eqn:Hi.
      * rewrite (visit_folder _ _ Hi) in H. bind_inv H. injection H as <-.
        rewrite (visit_folder _ a) by apply dict_get_set_same.
        destruct (dict_get_Forall
                    (fun x => (forall j', update_requests x = Ok j' ->
                                          update_requests j' = Ok j') /\
                              (forall j', visit x = Ok j' -> visit j' = Ok j'))
                    _ _ _ IH Hi) as [Hu _].
        rewrite (Hu _ Ha). simpl. now rewrite dict_set_set.
      * destruct (dict_get "request" d) as [r|] eqn:Hr.
        -- rewrite (visit_request _ _ Hi Hr) in H.
           bind_inv H. injection H as <-.
           rewrite (visit_request _ a).
           ++ unfold item_name. rewrite dict_get_set_other by discriminate.
              fold (item_name d). rewrite (patch_request_again _ _ _ Ha).
              simpl. now rewrite dict_set_set.
           ++ rewrite dict_get_set_other by discriminate. exact Hi.
           ++ apply dict_get_set_same.
        -- rewrite (visit_plain _ Hi Hr) in H. injection H as <-.
           now apply visit_plain.
Qed.

(** ** The walker on a well-formed collection *)

Lemma patch_body_total (r : dict) (raw : string) :
  request_shape [("request", JObj r)] = true ->
  exists request', patch_body (JObj r) raw = Ok request'.
Proof.
  unfold request_shape, patch_body. simpl.
  destruct (dict_get "body" r) as [body|] eqn:Hb.
  - destruct body as [| | | | | |b]; try discriminate. intros _.
    rewrite (has_body_raw_body _ _ Hb). simpl.
    rewrite (set_body_raw_body _ _ _ Hb). destruct (dict_has "raw" b); eauto.
  - intros _. rewrite (has_body_raw_no_body _ Hb). simpl. eauto.
Qed.

Lemma patch_request_total (name : json) (r : dict) :
  request_shape [("request", JObj r)] = true ->
  exists request', patch_request name (JObj r) = Ok request'.
Proof.
  intros Hs. rewrite patch_request_cases.
  destruct (py_eq_str name REGISTER_SUCCESS); [now apply patch_body_total|].
  destruct (py_eq_str name REGISTER_DUPLICATE).
  - destruct (patch_body_total r register_duplicate_raw Hs) as [r' H].
    unfold patch_body in H. bind_inv H. rewrite Ha. simpl. destruct a.
    + rewrite H. simpl. apply set_body_raw_inv in H.
      destruct H as (? & ? & _ & _ & ->). simpl. eauto.
    + eauto.
  - destruct (py_eq_str name LOGIN_SUCCESS); [now apply patch_body_total|].
    destruct (py_eq_str name LOGIN_INVALID); [now apply patch_body_total|].
    eauto.
Qed.

Lemma well_formed_item_dict (d : dict) :
  well_formed_item (JObj d) =
  match dict_get "item" d with
  | Some (JArr l) => forallb well_formed_item l
  | Some _ => false
  | None => request_shape d
  end.
Proof.
  change (well_formed_item (JObj d)) with
    (field_or "item"
       (fun nested =>
          match nested with
          | JArr l => forallb well_formed_item l
          | _ => false
          end)
       (request_shape d) d).
  rewrite field_or_eq. now destruct (dict_get "item" d) as [[]|].
Qed.

Lemma walker_total (j : json) :
  (well_formed_item j = true -> exists j', visit j = Ok j') /\
  (forall l, j = JArr l -> forallb well_formed_item l = true ->
             exists l', for_each visit l = Ok l').
Proof.
  induction j as [| | | | |l IH|d IH] using json_nested_ind;
    try solve [split; [intros [=] | intros ? [=]]].
  - split; [intros [=]|]. intros ? [= <-] Hwf.
    apply for_each_total. apply Forall_forall. intros x Hx.
    rewrite forallb_forall in Hwf. rewrite Forall_forall in IH.
    destruct (IH x Hx) as [Hv _]. apply Hv, Hwf, Hx.
  - split; [|intros ? [=]].
    rewrite well_formed_item_dict.
    destruct (dict_get "item" d) as [v|] eqn:Hi.
    + destruct v as [| | | | |l|]; try discriminate. intros Hwf.
      destruct (dict_get_Forall
                  (fun x => (well_formed_item x = true ->
                             exists j', visit x = Ok j') /\
                            (forall l, x = JArr l ->
                                       forallb well_formed_item l = true ->
                                       exists l', for_each visit l = Ok l'))
                  _ _ _ IH Hi) as [_ Hl].
      destruct (Hl l eq_refl Hwf) as [l' Hl'].
      rewrite (visit_folder _ _ Hi), update_requests_list, Hl'. simpl. eauto.
    + unfold request_shape.
      destruct (dict_get "request" d) as [request|] eqn:Hr.
      * destruct request as [| | | | | |r]; try discriminate. intros Hs.
        rewrite (visit_request _ _ Hi Hr).
        destruct (patch_request_total (item_name d) r) as [r' Hr'].
        -- unfold request_shape. simpl. exact Hs.
        -- rewrite Hr'. simpl. eauto.
      * intros _. rewrite (visit_plain _ Hi Hr). eauto.
Qed.

Lemma items_of_inv (j : json) (l : list json) :
  items_of j = Some l ->
  exists d, j = JObj d /\ dict_get "item" d = Some (JArr l).
Proof.
  destruct j as [| | | | | |d]; try discriminate. simpl.
  destruct (dict_get "item" d) as [[| | | | |l'|]|] eqn:Hi;
    try discriminate.
  intros [= ->]. eauto.
Qed.

(** The script on a collection it can finish on: the collection is a dict,
    its items are a list, the walker returns, and the dict then holds the
    folder followed by the walked items. *)
Lemma transform_inv (doc doc' : json) :
  transform doc = Ok doc' ->
  exists d items items',
    doc = JObj d /\ dict_get "item" d = Some (JArr items) /\
    for_each visit items = Ok items' /\
    doc' = JObj (dict_set "item" (JArr (seeded_data_folder :: items')) d).
Proof.
  unfold transform. intros H. bind_inv H. bind_inv H. bind_inv H.
  destruct doc as [| | | | | |d]; try discriminate.
  simpl in Ha. destruct (dict_get "item" d) as [v|] eqn:Hi; [|discriminate].
  injection Ha as <-.
  destruct a0; try discriminate. simpl in Ha1. injection Ha1 as <-.
  simpl in H. injection H as <-.
  destruct v as [| | | | |items|];
    try (apply update_requests_other in Ha0; [discriminate | intros ? [=]]).
  apply update_requests_list_inv in Ha0. destruct Ha0 as (l' & [= <-] & Hl).
  exists d, items, elems. auto.
Qed.

Lemma transform_items (d : dict) (items items' : list json) :
  dict_get "item" d = Some (JArr items) ->
  for_each visit items = Ok items' ->
  transform (JObj d) =
  Ok (JObj (dict_set "item" (JArr (seeded_data_folder :: items')) d)).
Proof.
  intros Hi Hl. unfold transform, py_getitem. rewrite Hi. cbn [bind].
  rewrite update_requests_list, Hl. reflexivity.
Qed.

Lemma transform_total (doc : json) :
  well_formed_document doc = true -> exists doc', transform doc = Ok doc'.
Proof.
  unfold well_formed_document.
  destruct (items_of doc) as [items|] eqn:Hi; [|discriminate]. intros Hwf.
  apply items_of_inv in Hi. destruct Hi as (d & -> & Hi).
  destruct (walker_total (JArr items)) as [_ Hl].
  destruct (Hl items eq_refl Hwf) as [items' Hl'].
  rewrite (transform_items _ _ _ Hi Hl'). eauto.
Qed.

(** ** Following a path through the walk *)

(** The walker keeps every item where it is: the item a path leads to
    afterwards is what the loop body made of the item it led to before. *)
Lemma item_at_walked (p : list nat) :
  forall (items items' : list json) (it : json),
    for_each visit items = Ok items' ->
    item_at p items = Some it ->
    exists it', item_at p items' = Some it' /\ visit it = Ok it'.
Proof.
  induction p as [|i p IH]; intros items items' it Hl Hat; [discriminate|].
  simpl in Hat. destruct (nth_error items i) as [x|] eqn:Hn; [|discriminate].
  apply for_each_Forall2 in Hl.
  destruct (Forall2_nth_error _ _ _ _ _ Hl Hn) as (x' & Hn' & Hx).
  destruct p as [|j p].
  - injection Hat as <-. exists x'. simpl. now rewrite Hn'.
  - destruct (items_of x) as [nested|] eqn:Hnested; [|discriminate].
    apply items_of_inv in Hnested. destruct Hnested as (d & -> & Hi).
    rewrite (visit_folder _ _ Hi) in Hx. bind_inv Hx. injection Hx as <-.
    apply update_requests_list_inv in Ha. destruct Ha as (nested' & -> & Hl').
    destruct (IH _ _ _ Hl' Hat) as (it' & Hat' & Hit).
    exists it'. split; [|exact Hit].
    change (item_at (i :: j :: p) items') with
      (match nth_error items' i with
       | Some it0 =>
           match items_of it0 with
           | Some nested0 => item_at (j :: p) nested0
           | None => None
           end
       | None => None
       end).
    rewrite Hn'. simpl. now rewrite dict_get_set_same.
Qed.

Lemma doc_item_at_transformed (doc doc' : json) (p : list nat) (it : json) :
  transform doc = Ok doc' ->
  doc_item_at p doc = Some it ->
  exists it', doc_item_at (after_insert p) doc' = Some it' /\ visit it = Ok it'.
Proof.
  intros Ht Hat. apply transform_inv in Ht.
  destruct Ht as (d & items & items' & -> & Hi & Hl & ->).
  unfold doc_item_at in *. simpl in *. rewrite Hi in Hat.
  rewrite dict_get_set_same.
  destruct (item_at_walked _ _ _ _ Hl Hat) as (it' & Hat' & Hit).
  exists it'. split; [|exact Hit].
  destruct p as [|i p]; [discriminate|]. exact Hat'.
Qed.

(** ** The loop body on a request item *)

Lemma is_request_inv (d : dict) :
  is_request d = true ->
  dict_get "item" d = None /\ exists request, dict_get "request" d = Some request.
Proof.
  unfold is_request. intros H. apply andb_true_iff in H. destruct H as [Hi Hr].
  apply negb_true_iff, dict_has_false in Hi. apply dict_has_true in Hr. auto.
Qed.

Lemma patch_body_present (r b : dict) (raw : string) :
  dict_get "body" r = Some (JObj b) -> dict_has "raw" b = true ->
  patch_body (JObj r) raw =
  Ok (JObj (dict_set "body" (JObj (dict_set "raw" (JStr raw) b)) r)).
Proof.
  intros Hb Hraw. unfold patch_body.
  rewrite (has_body_raw_body _ _ Hb), Hraw. simpl.
  apply set_body_raw_body, Hb.
Qed.

Lemma has_body_raw_missing (r : dict) :
  dict_get "body" r = None \/
  (exists b, dict_get "body" r = Some (JObj b) /\ dict_get "raw" b = None) ->
  has_body_raw (JObj r) = Ok false.
Proof.
  intros [Hb | (b & Hb & Hraw)].
  - now apply has_body_raw_no_body.
  - rewrite (has_body_raw_body _ _ Hb). apply dict_has_false in Hraw.
    now rewrite Hraw.
Qed.

Lemma patch_request_missing (name : json) (r : dict) :
  has_body_raw (JObj r) = Ok false -> patch_request name (JObj r) = Ok (JObj r).
Proof.
  intros H. rewrite patch_request_cases. unfold patch_body. rewrite H. simpl.
  now repeat match goal with |- context [if ?c then _ else _] => destruct c end.
Qed.

Lemma patch_request_unmatched (name request : json) :
  has_body_raw request = Ok false -> patch_request name request = Ok request.
Proof.
  intros H. rewrite patch_request_cases. unfold patch_body. rewrite H. simpl.
  now repeat match goal with |- context [if ?c then _ else _] => destruct c end.
Qed.


Lemma visit_unpatched (d : dict) (request : json) :
  dict_get "item" d = None -> dict_get "request" d = Some request ->
  patch_request (item_name d) request = Ok request ->
  visit (JObj d) = Ok (JObj d).
Proof.
  intros Hi Hr Hp. rewrite (visit_request _ _ Hi Hr), Hp. simpl.
  now rewrite (dict_set_get _ _ _ Hr).
Qed.

Lemma visit_name (item item' : json) :
  visit item = Ok item' -> name_of item' = name_of item.
Proof.
  intros H. destruct item as [| | | | | |d];
    try (now apply visit_other_same in H; subst).
  destruct (dict_get "item" d) as [v|] eqn:Hi.
  - rewrite (visit_folder _ _ Hi) in H. bind_inv H. injection H as <-.
    simpl. unfold item_name. now rewrite dict_get_set_other by discriminate.
  - destruct (dict_get "request" d) as [r|] eqn:Hr.
    + rewrite (visit_request _ _ Hi Hr) in H. bind_inv H. injection H as <-.
      simpl. unfold item_name. now rewrite dict_get_set_other by discriminate.
    + rewrite (visit_plain _ Hi Hr) in H. now injection H as <-.
Qed.


(** The tests for a body and for a raw field are membership tests, and
    Python has none on [None]: a request whose body is [null] in the file
    makes the walker raise, under any of the four names. *)
Lemma null_body_raises :
  visit (JObj [ ("name", JStr "Login - Success");
                ("request", JObj [("method", JStr "POST"); ("body", JNull)]) ])
  = Raise TypeError.
Proof. reflexivity. Qed.

(** * The claims *)

(** C1. The script finishes on every well-formed collection, and whenever it
    finishes the top-level items are one more than before: first the folder
    named [Seeded Data Tests], which holds eight items, then the items that
    were there, each in its place, as the walker left it and under the name
    it had. *)
Theorem seeded_folder_inserted_first (doc : json) :
  (well_formed_document doc = true -> exists doc', transform doc = Ok doc') /\
  (forall doc', transform doc = Ok doc' ->
   exists items items' nested,
     items_of doc = Some items /\
     items_of doc' = Some (seeded_data_folder :: items') /\
     length (seeded_data_folder :: items') = S (length items) /\
     Forall2 (fun it it' => visit it = Ok it' /\ name_of it' = name_of it)
             items items' /\
     name_of seeded_data_folder = JStr "Seeded Data Tests" /\
     items_of seeded_data_folder = Some nested /\
     length nested = 8).
Proof.
  split; [apply transform_total|].
  intros doc' H. apply transform_inv in H.
  destruct H as (d & items & items' & -> & Hi & Hl & ->).
  exists items, items'. eexists. simpl items_of. rewrite Hi, dict_get_set_same.
  repeat split; try reflexivity.
  - simpl. f_equal. eapply for_each_length, Hl.
  - apply for_each_Forall2 in Hl. revert Hl. apply Forall2_impl.
    intros x x' Hx. split; [exact Hx | now apply visit_name].
Qed.

Lemma seeded_folder_inserted_first_sample :
  exists doc' items',
    transform sample_collection = Ok doc' /\
    items_of doc' = Some (seeded_data_folder :: items') /\
    length items' = 2.
Proof.
  destruct (seeded_folder_inserted_first sample_collection) as [Htotal Hshape].
  destruct (Htotal eq_refl) as [doc' Hdoc'].
  destruct (Hshape doc' Hdoc')
    as (items & items' & nested & Hi & Hi' & Hlen & _).
  exists doc', items'. repeat split; try assumption.
  injection Hi as <-. simpl in Hlen. now injection Hlen.
Defined.

(** C2, as the specification words it, fails on a request that has no
    body: the script sets the description inside the test for a raw body, so
    there the description stays what it was. *)
Lemma duplicate_without_body_keeps_description :
  exists doc' it it' request',
    doc_item_at [0] duplicate_without_body = Some it /\
    name_of it = JStr REGISTER_DUPLICATE /\
    transform duplicate_without_body = Ok doc' /\
    doc_item_at [1] doc' = Some it' /\
    request_of it' = Some request' /\
    body_raw request' = None /\
    description request' = Some (JStr "Register twice") /\
    description request' <> Some (JStr register_duplicate_description).
Proof.
  do 4 eexists. repeat split; try (vm_compute; reflexivity).
  vm_compute. discriminate.
Qed.

(** C2, amended. A request item named [Register User - Duplicate ID] whose
    request has a body with a raw field, anywhere in the tree of a
    collection the script finishes on, holds afterwards the script's body
    text for john.doe and the script's description. *)
Theorem register_duplicate_body_and_description
        (doc : json) (p : list nat) (d r b : dict) :
  doc_item_at p doc = Some (JObj d) ->
  is_request d = true ->
  item_name d = JStr REGISTER_DUPLICATE ->
  dict_get "request" d = Some (JObj r) ->
  dict_get "body" r = Some (JObj b) ->
  dict_has "raw" b = true ->
  (well_formed_document doc = true -> exists doc', transform doc = Ok doc') /\
  (forall doc', transform doc = Ok doc' ->
   exists it' request',
     doc_item_at (after_insert p) doc' = Some it' /\
     name_of it' = JStr REGISTER_DUPLICATE /\
     request_of it' = Some request' /\
     body_raw request' = Some (JStr register_duplicate_raw) /\
     description request' = Some (JStr register_duplicate_description)) /\
  str_contains (py_str "\x22id\x22: \x22john.doe\x22") register_duplicate_raw
  = true /\
  str_contains "john.doe already exists in seed data"
               register_duplicate_description = true.
Proof.
  intros Hat Hreq Hname Hr Hb Hraw.
  split; [apply transform_total|]. split; [|split; reflexivity].
  intros doc' Ht.
  destruct (doc_item_at_transformed _ _ _ _ Ht Hat) as (it' & Hat' & Hv).
  exists it'. destruct (is_request_inv _ Hreq) as [Hi _].
  pose proof (visit_name _ _ Hv) as Hn.
  rewrite (visit_request _ _ Hi Hr), Hname, patch_request_cases in Hv.
  change (py_eq_str (JStr REGISTER_DUPLICATE) REGISTER_SUCCESS) with false in Hv.
  change (py_eq_str (JStr REGISTER_DUPLICATE) REGISTER_DUPLICATE) with true in Hv.
  cbv iota in Hv.
  rewrite (has_body_raw_body _ _ Hb), Hraw in Hv. cbn [bind] in Hv.
  rewrite (set_body_raw_body _ _ _ Hb) in Hv. cbn [bind py_setitem] in Hv.
  injection Hv as <-. eexists. split; [exact Hat'|].
  split; [rewrite Hn; exact Hname|].
  split; [simpl; apply dict_get_set_same|].
  split.
  - unfold body_raw. rewrite dict_get_set_other by discriminate.
    rewrite dict_get_set_same. apply dict_get_set_same.
  - unfold description. apply dict_get_set_same.
Qed.

Lemma register_duplicate_body_and_description_sample :
  exists doc' it' request',
    transform sample_collection = Ok doc' /\
    doc_item_at [1; 1] doc' = Some it' /\
    request_of it' = Some request' /\
    body_raw request' = Some (JStr register_duplicate_raw) /\
    description request' = Some (JStr register_duplicate_description).
Proof.
  destruct (register_duplicate_body_and_description
              sample_collection [0; 1]
              [ ("name", JStr "Register User - Duplicate ID");
                ("request", JObj [
                   ("method", JStr "POST");
                   ("body", JObj [("mode", JStr "raw"); ("raw", JStr "{}")]);
                   ("description", JStr "Register twice") ]);
                ("response", JArr []) ]
              [ ("method", JStr "POST");
                ("body", JObj [("mode", JStr "raw"); ("raw", JStr "{}")]);
                ("description", JStr "Register twice") ]
              [ ("mode", JStr "raw"); ("raw", JStr "{}") ]
              eq_refl eq_refl eq_refl eq_refl eq_refl eq_refl)
    as (Htotal & Hafter & _).
  destruct (Htotal eq_refl) as [doc' Hdoc'].
  destruct (Hafter doc' Hdoc') as (it' & request' & H1 & _ & H2 & H3 & H4).
  exists doc', it', request'. auto.
Defined.

(** C3. A request item named [Register User - Success] whose request has a
    body with a raw field, anywhere in the tree of a collection the script
    finishes on, holds afterwards the script's body text, the one with id
    test.user, password TestPass123! and name Test User. *)
Theorem register_success_body (doc : json) (p : list nat) (d r b : dict) :
  doc_item_at p doc = Some (JObj d) ->
  is_request d = true ->
  item_name d = JStr REGISTER_SUCCESS ->
  dict_get "request" d = Some (JObj r) ->
  dict_get "body" r = Some (JObj b) ->
  dict_has "raw" b = true ->
  (well_formed_document doc = true -> exists doc', transform doc = Ok doc') /\
  (forall doc', transform doc = Ok doc' ->
   exists it' request',
     doc_item_at (after_insert p) doc' = Some it' /\
     name_of it' = JStr REGISTER_SUCCESS /\
     request_of it' = Some request' /\
     body_raw request' = Some (JStr register_success_raw)) /\
  str_contains (py_str "\x22id\x22: \x22test.user\x22") register_success_raw
  = true /\
  str_contains (py_str "\x22password\x22: \x22TestPass123!\x22")
               register_success_raw = true /\
  str_contains (py_str "\x22name\x22: \x22Test User\x22") register_success_raw
  = true.
Proof.
  intros Hat Hreq Hname Hr Hb Hraw.
  split; [apply transform_total|]. split; [|repeat split; reflexivity].
  intros doc' Ht.
  destruct (doc_item_at_transformed _ _ _ _ Ht Hat) as (it' & Hat' & Hv).
  exists it'. destruct (is_request_inv _ Hreq) as [Hi _].
  pose proof (visit_name _ _ Hv) as Hn.
  rewrite (visit_request _ _ Hi Hr), Hname, patch_request_cases in Hv.
  change (py_eq_str (JStr REGISTER_SUCCESS) REGISTER_SUCCESS) with true in Hv.
  cbv iota in Hv. rewrite (patch_body_present _ _ _ Hb Hraw) in Hv.
  cbn [bind] in Hv. injection Hv as <-. eexists. split; [exact Hat'|].
  split; [rewrite Hn; exact Hname|].
  split; [simpl; apply dict_get_set_same|].
  unfold body_raw. rewrite dict_get_set_same. apply dict_get_set_same.
Qed.

Lemma register_success_body_sample :
  exists doc' it' request',
    transform sample_collection = Ok doc' /\
    doc_item_at [1; 0] doc' = Some it' /\
    request_of it' = Some request' /\
    body_raw request' = Some (JStr register_success_raw).
Proof.
  destruct (register_success_body
              sample_collection [0; 0]
              [ ("name", JStr "Register User - Success");
                ("request", JObj [
                   ("method", JStr "POST");
                   ("body", JObj [("mode", JStr "raw"); ("raw", JStr "{}")]) ]);
                ("response", JArr []) ]
              [ ("method", JStr "POST");
                ("body", JObj [("mode", JStr "raw"); ("raw", JStr "{}")]) ]
              [ ("mode", JStr "raw"); ("raw", JStr "{}") ]
              eq_refl eq_refl eq_refl eq_refl eq_refl eq_refl)
    as (Htotal & Hafter & _).
  destruct (Htotal eq_refl) as [doc' Hdoc'].
  destruct (Hafter doc' Hdoc') as (it' & request' & H1 & _ & H2 & H3).
  exists doc', it', request'. auto.
Defined.

(** C4. A request item whose name is none of the four names of the script,
    anywhere in the tree of a collection the script finishes on, is
    afterwards the item it was, field for field: its body and its
    description with the rest. *)
Theorem other_request_unchanged (doc : json) (p : list nat) (d : dict) :
  doc_item_at p doc = Some (JObj d) ->
  is_request d = true ->
  is_target (item_name d) = false ->
  visit (JObj d) = Ok (JObj d) /\
  (well_formed_document doc = true -> exists doc', transform doc = Ok doc') /\
  (forall doc', transform doc = Ok doc' ->
   doc_item_at (after_insert p) doc' = Some (JObj d)).
Proof.
  intros Hat Hreq Hname.
  destruct (is_request_inv _ Hreq) as (Hi & request & Hr).
  assert (Hv : visit (JObj d) = Ok (JObj d)).
  { apply (visit_unpatched _ _ Hi Hr). now apply patch_request_other. }
  split; [exact Hv|]. split; [apply transform_total|].
  intros doc' Ht.
  destruct (doc_item_at_transformed _ _ _ _ Ht Hat) as (it' & Hat' & Hv').
  rewrite Hv in Hv'. now injection Hv' as <-.
Qed.

Lemma other_request_unchanged_sample :
  exists doc' it,
    transform sample_collection = Ok doc' /\
    doc_item_at [0; 3] sample_collection = Some it /\
    name_of it = JStr "Get Current User" /\
    doc_item_at [1; 3] doc' = Some it.
Proof.
  destruct (other_request_unchanged
              sample_collection [0; 3]
              [ ("name", JStr "Get Current User");
                ("request", JObj [
                   ("method", JStr "GET");
                   ("body", JObj [("mode", JStr "raw"); ("raw", JStr "{}")]) ]);
                ("response", JArr []) ]
              eq_refl eq_refl eq_refl)
    as (_ & Htotal & Hafter).
  destruct (Htotal eq_refl) as [doc' Hdoc'].
  exists doc'. eexists. split; [exact Hdoc'|].
  split; [reflexivity|]. split; [reflexivity|]. exact (Hafter doc' Hdoc').
Defined.

(** C5. The script run on a collection it has been run on finishes again
    and puts a second folder named [Seeded Data Tests] in front of the
    first: the walker finds nothing to change in the first folder nor in
    the items it has patched, so nothing tells the second run from a first
    one. *)
Theorem second_run_inserts_second_folder (doc : json) :
  (well_formed_document doc = true -> exists doc1, transform doc = Ok doc1) /\
  (forall doc1, transform doc = Ok doc1 ->
   exists doc2 items1,
     transform doc1 = Ok doc2 /\
     items_of doc1 = Some (seeded_data_folder :: items1) /\
     items_of doc2 =
       Some (seeded_data_folder :: seeded_data_folder :: items1) /\
     name_of seeded_data_folder = JStr "Seeded Data Tests").
Proof.
  split; [apply transform_total|].
  intros doc1 H. apply transform_inv in H.
  destruct H as (d & items & items1 & -> & Hi & Hl & ->).
  assert (Hl1 : for_each visit (seeded_data_folder :: items1)
                = Ok (seeded_data_folder :: items1)).
  { destruct (walker_again (JArr items)) as [Hu _].
    specialize (Hu (JArr items1)). rewrite !update_requests_list, Hl in Hu.
    specialize (Hu eq_refl). bind_inv Hu. injection Hu as ->.
    change (for_each visit (seeded_data_folder :: items1)) with
      (x' <- visit seeded_data_folder ;;
       rest' <- for_each visit items1 ;; Ok (x' :: rest')).
    rewrite Ha.
    replace (visit seeded_data_folder) with (Ok seeded_data_folder)
      by (vm_compute; reflexivity).
    reflexivity. }
  eexists. exists items1. split.
  - exact (transform_items _ _ _ (dict_get_set_same _ _ _) Hl1).
  - simpl items_of. rewrite !dict_get_set_same. auto.
Qed.

Lemma second_run_inserts_second_folder_sample :
  exists doc1 doc2 items1,
    transform sample_collection = Ok doc1 /\
    transform doc1 = Ok doc2 /\
    items_of doc2 = Some (seeded_data_folder :: seeded_data_folder :: items1) /\
    length items1 = 2.
Proof.
  destruct (second_run_inserts_second_folder sample_collection)
    as [Htotal Hsecond].
  destruct (Htotal eq_refl) as [doc1 Hdoc1].
  destruct (Hsecond doc1 Hdoc1) as (doc2 & items1 & H2 & Hi1 & Hi2 & _).
  exists doc1, doc2, items1. repeat split; try assumption.
  apply transform_inv in Hdoc1.
  destruct Hdoc1 as (d & items & items' & Hd & Hi & Hl & ->).
  injection Hd as <-. injection Hi as <-.
  simpl items_of in Hi1. injection Hi1 as <-.
  apply (for_each_length _ _ _ Hl).
Defined.

(** C6. When the file is missing or cannot be read, or its text is not
    JSON, the run ends with the exception of that step, prints nothing and
    leaves the file as it was. The reason is the order of the script: a run
    that leaves the file other than it was has read it, parsed it and
    walked the collection to the end. *)
Theorem failed_load_leaves_file
        (json_loads : string -> option json) (json_dumps : json -> string)
        (f : file) :
  (forall text, read_file f = Ok text -> json_loads text = None) ->
  (exists e,
     run json_loads json_dumps f
     = {| file_after := f; stdout := []; raised := Some e |} /\
     (read_file f = Raise e \/
      exists text, read_file f = Ok text /\ e = JSONDecodeError) /\
     (f = Absent -> e = FileNotFoundError)) /\
  (forall f0,
     file_after (run json_loads json_dumps f0) <> f0 ->
     exists text collection collection',
       read_file f0 = Ok text /\
       json_loads text = Some collection /\
       transform collection = Ok collection').
Proof.
  intros Hbad. split.
  - unfold run, json_load. destruct (read_file f) as [text|e] eqn:Hread.
    + rewrite (Hbad text eq_refl). exists JSONDecodeError.
      split; [reflexivity|]. split; [eauto|]. intros ->. discriminate.
    + exists e. split; [reflexivity|]. split; [auto|].
      intros ->. simpl in Hread. congruence.
  - intros f0. unfold run, json_load.
    destruct (read_file f0) as [text|]; [|intros []; reflexivity].
    destruct (json_loads text) as [collection|] eqn:Hload;
      [|intros []; reflexivity].
    destruct (transform collection) as [collection'|] eqn:Hwalk;
      [|intros []; reflexivity].
    intros _. exists text, collection, collection'. auto.
Qed.

Lemma failed_load_leaves_file_sample :
  run sample_loads sample_dumps (Present true true "{ item: ")
  = {| file_after := Present true true "{ item: "; stdout := [];
       raised := Some JSONDecodeError |}.
Proof.
  destruct (failed_load_leaves_file
              sample_loads sample_dumps (Present true true "{ item: "))
    as [(e & Hrun & [Hread | (text & _ & ->)] & _) _].
  - intros text [= <-]. reflexivity.
  - discriminate Hread.
  - exact Hrun.
Defined.




(** C8. Of the eight request items of the added folder, the first two,
    [Login as john.doe] and [Login as jane.smith], carry the event whose
    script stores [data.token] of the response as [auth_token]; the other
    six carry no event at all. *)
Theorem two_login_items_capture_token :
  exists nested,
    items_of seeded_data_folder = Some nested /\
    length nested = 8 /\
    forallb (fun it => match it with JObj d => is_request d | _ => false end)
            nested = true /\
    map (fun it => (name_of it, event_of it)) nested =
    [ (JStr "Login as john.doe", Some token_capture_event);
      (JStr "Login as jane.smith", Some token_capture_event);
      (JStr "Get Seeded Contact - Alice Johnson", None);
      (JStr "Get Seeded Contact - Bob Williams", None);
      (JStr "Get Seeded Contact - Charlie Brown", None);
      (JStr "List Addresses for Alice Johnson", None);
      (JStr "Get Seeded Address - Alice's NY Address", None);
      (JStr "Update Seeded Contact - Alice Johnson", None) ].
Proof. eexists. repeat split; vm_compute; reflexivity. Qed.

(** C9. An item with both nested items and a request is a folder to the
    walker, whatever its name: the walker walks the nested items, and the
    item it leaves behind differs in those alone, so its request is the
    request it had. *)
Theorem folder_test_comes_first (d : dict) (nested request : json) :
  dict_get "item" d = Some nested ->
  dict_get "request" d = Some request ->
  visit (JObj d)
  = (nested' <- update_requests nested ;;
     Ok (JObj (dict_set "item" nested' d))) /\
  (forall item',
     visit (JObj d) = Ok item' ->
     request_of item' = Some request /\
     exists d' nested',
       item' = JObj d' /\
       update_requests nested = Ok nested' /\
       dict_get "item" d' = Some nested' /\
       forall k, k <> "item" -> dict_get k d' = dict_get k d).
Proof.
  intros Hi Hr. split; [now apply visit_folder|].
  intros item' H. rewrite (visit_folder _ _ Hi) in H.
  bind_inv H. injection H as <-. split.
  - simpl. now rewrite dict_get_set_other by discriminate.
  - eexists. exists a. repeat split; [exact Ha | apply dict_get_set_same |].
    intros k Hk. apply dict_get_set_other. congruence.
Qed.

Lemma folder_test_comes_first_sample :
  exists item',
    visit (JObj folder_with_request) = Ok item' /\
    request_of item'
    = Some (JObj [("body", JObj [("raw", JStr "{}")])]) /\
    items_of item'
    = Some [ JObj [ ("name", JStr "Login - Success");
                    ("request",
                     JObj [("body", JObj [("raw", JStr login_success_raw)])]) ] ].
Proof.
  destruct (folder_test_comes_first
              folder_with_request
              (JArr [ JObj [ ("name", JStr "Login - Success");
                             ("request",
                              JObj [("body", JObj [("raw", JStr "{}")])]) ] ])
              (JObj [("body", JObj [("raw", JStr "{}")])])
              eq_refl eq_refl) as [Heq Hkept].
  eexists. split; [rewrite Heq; vm_compute; reflexivity|].
  split; vm_compute; reflexivity.
Defined.

(** C10. An item with no name raises nothing on that account: the walker
    takes the empty string for its name, which is none of the four names.
    A nameless item that is no folder is left as it is, whatever its
    request; a nameless folder is walked like any folder. *)
Theorem nameless_item_skipped (d : dict) :
  dict_get "name" d = None ->
  py_get (JObj d) "name" (JStr EmptyString) = Ok (JStr EmptyString) /\
  is_target (JStr EmptyString) = false /\
  (dict_get "item" d = None -> visit (JObj d) = Ok (JObj d)) /\
  (forall nested,
     dict_get "item" d = Some nested ->
     visit (JObj d)
     = (nested' <- update_requests nested ;;
        Ok (JObj (dict_set "item" nested' d)))) /\
  (forall doc doc' p,
     dict_get "item" d = None ->
     transform doc = Ok doc' ->
     doc_item_at p doc = Some (JObj d) ->
     doc_item_at (after_insert p) doc' = Some (JObj d)).
Proof.
  intros Hname.
  assert (Hv : dict_get "item" d = None -> visit (JObj d) = Ok (JObj d)).
  { intros Hi. destruct (dict_get "request" d) as [request|] eqn:Hr.
    - apply (visit_unpatched _ _ Hi Hr). apply patch_request_other.
      unfold item_name. now rewrite Hname.
    - now apply visit_plain. }
  split; [simpl; now rewrite Hname|]. split; [reflexivity|].
  split; [exact Hv|]. split; [intros nested; apply visit_folder|].
  intros doc doc' p Hi Ht Hat.
  destruct (doc_item_at_transformed _ _ _ _ Ht Hat) as (it' & Hat' & Hv').
  rewrite (Hv Hi) in Hv'. now injection Hv' as <-.
Qed.

Lemma nameless_item_skipped_sample :
  visit (JObj [ ("request", JObj [("body", JObj [("raw", JStr "{}")])]) ])
  = Ok (JObj [ ("request", JObj [("body", JObj [("raw", JStr "{}")])]) ]).
Proof.
  destruct (nameless_item_skipped
              [ ("request", JObj [("body", JObj [("raw", JStr "{}")])]) ]
              eq_refl) as (_ & _ & Hv & _).
  exact (Hv eq_refl).
Defined.

(** * Beyond the claims *)

(** ** Keys and order *)

Lemma dict_set_keys (k : string) (v : json) (d : dict) :
  keys (dict_set k v d)
  = if dict_has k d then keys d else (keys d ++ [k])%list.
Proof.
  unfold dict_has, keys. induction d as [|[k' v'] d IH]; simpl; [reflexivity|].
  destruct (String.eqb k' k) eqn:E; simpl; [reflexivity|].
  rewrite IH. now destruct (dict_get k d).
Qed.

Lemma dict_set_keys_present (k : string) (v x : json) (d : dict) :
  dict_get k d = Some x -> keys (dict_set k v d) = keys d.
Proof. intros H. rewrite dict_set_keys. unfold dict_has. now rewrite H. Qed.

(** ** The request branch on any request *)

Lemma expected_raw_target (name : json) :
  is_target name = true <-> exists raw, expected_raw name = Some raw.
Proof.
  unfold is_target, target_names, expected_raw. simpl.
  destruct (py_eq_str name REGISTER_SUCCESS); [split; eauto|].
  destruct (py_eq_str name REGISTER_DUPLICATE); [split; eauto|].
  destruct (py_eq_str name LOGIN_SUCCESS); [split; eauto|].
  destruct (py_eq_str name LOGIN_INVALID); [split; eauto|].
  simpl. split; [discriminate | now intros [raw [=]]].
Qed.

(** Under a name of the chain the request branch is the test, then the
    assignment of that name's text, then for one name the description. *)
Lemma patch_request_expected (name request : json) (raw : string) :
  expected_raw name = Some raw ->
  patch_request name request =
  (c <- has_body_raw request ;;
   if c : bool then
     request' <- set_body_raw request raw ;;
     if py_eq_str name REGISTER_SUCCESS then Ok request'
     else if py_eq_str name REGISTER_DUPLICATE then
       py_setitem request' "description" (JStr register_duplicate_description)
     else Ok request'
   else Ok request).
Proof.
  rewrite patch_request_cases. unfold expected_raw, patch_body.
  destruct (py_eq_str name REGISTER_SUCCESS).
  { intros [= <-]. destruct (has_body_raw request) as [[]|]; simpl; trivial.
    now destruct (set_body_raw request register_success_raw). }
  destruct (py_eq_str name REGISTER_DUPLICATE).
  { now intros [= <-]. }
  destruct (py_eq_str name LOGIN_SUCCESS).
  { intros [= <-]. destruct (has_body_raw request) as [[]|]; simpl; trivial.
    now destruct (set_body_raw request login_success_raw). }
  destruct (py_eq_str name LOGIN_INVALID); [|discriminate].
  intros [= <-]. destruct (has_body_raw request) as [[]|]; simpl; trivial.
  now destruct (set_body_raw request login_invalid_raw).
Qed.


(** What the request branch leaves behind under a name of the chain, when
    it assigns. *)
Lemma patch_request_assigned (name request request' : json) (raw : string) :
  expected_raw name = Some raw ->
  has_body_raw request = Ok true ->
  patch_request name request = Ok request' ->
  exists r b,
    request = JObj r /\ dict_get "body" r = Some (JObj b) /\
    let r1 := dict_set "body" (JObj (dict_set "raw" (JStr raw) b)) r in
    request' = JObj r1 \/
    (py_eq_str name REGISTER_DUPLICATE = true /\
     request' = JObj (dict_set "description"
                        (JStr register_duplicate_description) r1)).
Proof.
  intros He Hc H. rewrite (patch_request_expected _ _ _ He), Hc in H.
  cbn [bind] in H. bind_inv H. apply set_body_raw_inv in Ha.
  destruct Ha as (r & b & -> & Hb & ->). exists r, b.
  split; [reflexivity|]. split; [exact Hb|]. cbv zeta.
  destruct (py_eq_str name REGISTER_SUCCESS); [left; congruence|].
  destruct (py_eq_str name REGISTER_DUPLICATE).
  - right. simpl in H. split; [reflexivity | congruence].
  - left. congruence.
Qed.

(** ** The walker on what is not a list of dicts *)

Lemma visit_other_string (k : string) :
  visit_other (JStr k)
  = if mentions_walker_key k then Raise TypeError else Ok (JStr k).
Proof.
  unfold visit_other, mentions_walker_key. simpl.
  destruct (str_contains "item" k); [reflexivity|]. simpl.
  now destruct (str_contains "request" k).
Qed.

Lemma for_each_strings (ks : list string) :
  for_each visit_other (map JStr ks)
  = if existsb mentions_walker_key ks then Raise TypeError
    else Ok (map JStr ks).
Proof.
  induction ks as [|k ks IH]; [reflexivity|].
  change (for_each visit_other (map JStr (k :: ks))) with
    (x' <- visit_other (JStr k) ;;
     rest' <- for_each visit_other (map JStr ks) ;; Ok (x' :: rest')).
  rewrite visit_other_string, IH. simpl.
  destruct (mentions_walker_key k); [reflexivity|]. simpl.
  now destruct (existsb mentions_walker_key ks).
Qed.

Lemma str_contains_one (a b c : ascii) (needle : string) :
  str_contains (String a (String b needle)) (String c EmptyString) = false.
Proof.
  cbn [str_contains String.prefix].
  now destruct (Ascii.ascii_dec a c).
Qed.

Lemma one_character_mentions_nothing (c : ascii) :
  mentions_walker_key (String c EmptyString) = false.
Proof. unfold mentions_walker_key. now rewrite !str_contains_one. Qed.

Lemma characters_mention_nothing (s : string) :
  existsb mentions_walker_key
          (map (fun c => String c EmptyString) (list_ascii_of_string s))
  = false.
Proof.
  induction s as [|c s IH]; [reflexivity|]. simpl.
  now rewrite one_character_mentions_nothing, IH.
Qed.

(** ** From the walked tree back to the tree *)

Lemma visit_items_back (x x' : json) (nested' : list json) :
  visit x = Ok x' -> items_of x' = Some nested' ->
  exists nested, items_of x = Some nested /\ for_each visit nested = Ok nested'.
Proof.
  intros Hv Hn. destruct x as [| | | | | |d];
    try (apply visit_other_same in Hv; subst; discriminate).
  destruct (dict_get "item" d) as [v|] eqn:Hi.
  - rewrite (visit_folder _ _ Hi) in Hv. bind_inv Hv. injection Hv as <-.
    simpl in Hn. rewrite dict_get_set_same in Hn.
    destruct a as [| | | | |l'|]; try discriminate. injection Hn as ->.
    destruct v as [| | | | |l|];
      try (apply update_requests_other in Ha; [discriminate | intros ? [=]]).
    apply update_requests_list_inv in Ha. destruct Ha as (l0 & [= <-] & Hl).
    exists l. simpl. rewrite Hi. auto.
  - assert (Hi' : forall d', x' = JObj d' -> dict_get "item" d' = None).
    { destruct (dict_get "request" d) as [r|] eqn:Hr.
      - rewrite (visit_request _ _ Hi Hr) in Hv. bind_inv Hv.
        injection Hv as <-. intros d' [= <-].
        now rewrite dict_get_set_other by discriminate.
      - rewrite (visit_plain _ Hi Hr) in Hv. injection Hv as <-.
        now intros d' [= <-]. }
    apply items_of_inv in Hn. destruct Hn as (d' & -> & Hn).
    rewrite (Hi' d' eq_refl) in Hn. discriminate.
Qed.

Lemma item_at_walked_back (p : list nat) :
  forall (items items' : list json) (it' : json),
    for_each visit items = Ok items' ->
    item_at p items' = Some it' ->
    exists it, item_at p items = Some it /\ visit it = Ok it'.
Proof.
  induction p as [|i p IH]; intros items items' it' Hl Hat; [discriminate|].
  simpl in Hat. destruct (nth_error items' i) as [x'|] eqn:Hn'; [|discriminate].
  apply for_each_Forall2 in Hl. apply Forall2_flip in Hl.
  destruct (Forall2_nth_error _ _ _ _ _ Hl Hn') as (x & Hn & Hx).
  destruct p as [|j p].
  - injection Hat as <-. exists x. simpl. now rewrite Hn.
  - destruct (items_of x') as [nested'|] eqn:Hnested'; [|discriminate].
    destruct (visit_items_back _ _ _ Hx Hnested') as (nested & Hnested & Hl').
    destruct (IH _ _ _ Hl' Hat) as (it & Hat0 & Hit).
    exists it. split; [|exact Hit].
    change (item_at (i :: j :: p) items) with
      (match nth_error items i with
       | Some it0 =>
           match items_of it0 with
           | Some nested0 => item_at (j :: p) nested0
           | None => None
           end
       | None => None
       end).
    now rewrite Hn, Hnested.
Qed.

(** ** The loop body on a dict *)

Lemma visit_dict_shape (d : dict) (item' : json) :
  visit (JObj d) = Ok item' ->
  exists d',
    item' = JObj d' /\ keys d' = keys d /\
    forall k, k <> "item" -> k <> "request" -> dict_get k d' = dict_get k d.
Proof.
  intros H. destruct (dict_get "item" d) as [v|] eqn:Hi.
  - rewrite (visit_folder _ _ Hi) in H. bind_inv H. injection H as <-.
    eexists. split; [reflexivity|]. split.
    + apply (dict_set_keys_present _ _ _ _ Hi).
    + intros k Hk _. apply dict_get_set_other. congruence.
  - destruct (dict_get "request" d) as [r|] eqn:Hr.
    + rewrite (visit_request _ _ Hi Hr) in H. bind_inv H. injection H as <-.
      eexists. split; [reflexivity|]. split.
      * apply (dict_set_keys_present _ _ _ _ Hr).
      * intros k _ Hk. apply dict_get_set_other. congruence.
    + rewrite (visit_plain _ Hi Hr) in H. injection H as <-. eauto.
Qed.

Lemma patch_request_raises (name request : json) (e : py_error) :
  is_target name = true -> has_body_raw request = Raise e ->
  patch_request name request = Raise e.
Proof.
  intros Ht H. apply expected_raw_target in Ht. destruct Ht as [raw Hraw].
  rewrite (patch_request_expected _ _ _ Hraw), H. reflexivity.
Qed.

Lemma raw_only_patch_body (name raw : string) (request : json) :
  In (name, raw) raw_only_patches ->
  patch_request (JStr name) request = patch_body request raw.
Proof.
  intros [[= <- <-]|[[= <- <-]|[[= <- <-]|[]]]]; reflexivity.
Qed.

(** ** Walking again *)

(** X1. Walking a tree the walker has walked changes nothing and raises
    nothing: the walker is idempotent. *)
Theorem walking_twice_is_walking_once (items items' : json) :
  update_requests items = Ok items' -> update_requests items' = Ok items'.
Proof. apply walker_again. Qed.

Lemma walking_twice_is_walking_once_sample :
  update_requests
    (JArr [ JObj [ ("name", JStr "Login - Success");
                   ("request", JObj [("body", JObj [("raw", JStr "{}")])]) ] ])
  = Ok (JArr [ JObj [ ("name", JStr "Login - Success");
                      ("request",
                       JObj [("body",
                              JObj [("raw", JStr login_success_raw)])]) ] ]) /\
  update_requests
    (JArr [ JObj [ ("name", JStr "Login - Success");
                   ("request",
                    JObj [("body", JObj [("raw", JStr login_success_raw)])]) ] ])
  = Ok (JArr [ JObj [ ("name", JStr "Login - Success");
                      ("request",
                       JObj [("body",
                              JObj [("raw", JStr login_success_raw)])]) ] ]).
Proof.
  split; [reflexivity|].
  apply (walking_twice_is_walking_once
           (JArr [ JObj [ ("name", JStr "Login - Success");
                          ("request",
                           JObj [("body", JObj [("raw", JStr "{}")])]) ] ])).
  reflexivity.
Defined.

(** ** What a patch changes *)

(** X2. Under the names [Register User - Success], [Login - Success] and
    [Login - Invalid Credentials], a request item whose request has a body
    with a raw field comes out of the script with that name's text under
    [raw] and nothing else changed: the item, its request and its body have
    the keys they had, in the order they had, and every other value,
    description included, is the value it was. *)
Theorem raw_only_patch
        (doc : json) (p : list nat) (d r b : dict) (name raw : string) :
  In (name, raw) raw_only_patches ->
  doc_item_at p doc = Some (JObj d) ->
  is_request d = true ->
  item_name d = JStr name ->
  dict_get "request" d = Some (JObj r) ->
  dict_get "body" r = Some (JObj b) ->
  dict_has "raw" b = true ->
  forall doc', transform doc = Ok doc' ->
  exists d' r' b',
    doc_item_at (after_insert p) doc' = Some (JObj d') /\
    dict_get "request" d' = Some (JObj r') /\
    dict_get "body" r' = Some (JObj b') /\
    dict_get "raw" b' = Some (JStr raw) /\
    keys d' = keys d /\ keys r' = keys r /\ keys b' = keys b /\
    (forall k, k <> "request" -> dict_get k d' = dict_get k d) /\
    (forall k, k <> "body" -> dict_get k r' = dict_get k r) /\
    (forall k, k <> "raw" -> dict_get k b' = dict_get k b).
Proof.
  intros Hin Hat Hreq Hname Hr Hb Hraw doc' Ht.
  destruct (doc_item_at_transformed _ _ _ _ Ht Hat) as (it' & Hat' & Hv).
  destruct (is_request_inv _ Hreq) as [Hi _].
  rewrite (visit_request _ _ Hi Hr), Hname in Hv.
  rewrite (raw_only_patch_body _ _ _ Hin) in Hv.
  rewrite (patch_body_present _ _ _ Hb Hraw) in Hv. cbn [bind] in Hv.
  injection Hv as <-. apply dict_has_true in Hraw. destruct Hraw as [v Hv].
  exists (dict_set "request"
            (JObj (dict_set "body" (JObj (dict_set "raw" (JStr raw) b)) r)) d),
         (dict_set "body" (JObj (dict_set "raw" (JStr raw) b)) r),
         (dict_set "raw" (JStr raw) b).
  split; [exact Hat'|].
  split; [apply dict_get_set_same|]. split; [apply dict_get_set_same|].
  split; [apply dict_get_set_same|].
  split; [apply (dict_set_keys_present _ _ _ _ Hr)|].
  split; [apply (dict_set_keys_present _ _ _ _ Hb)|].
  split; [apply (dict_set_keys_present _ _ _ _ Hv)|].
  repeat split; intros k Hk; apply dict_get_set_other; congruence.
Qed.

Lemma raw_only_patch_sample :
  exists doc' d' r' b',
    transform login_collection = Ok doc' /\
    doc_item_at [1] doc' = Some (JObj d') /\
    dict_get "request" d' = Some (JObj r') /\
    dict_get "body" r' = Some (JObj b') /\
    dict_get "raw" b' = Some (JStr login_invalid_raw) /\
    dict_get "description" r' = Some (JStr "Wrong password").
Proof.
  destruct (transform_total login_collection eq_refl) as [doc' Ht].
  destruct (raw_only_patch
              login_collection [0]
              [ ("name", JStr "Login - Invalid Credentials");
                ("request", JObj [
                   ("method", JStr "POST");
                   ("body", JObj [("mode", JStr "raw"); ("raw", JStr "{}")]);
                   ("description", JStr "Wrong password") ]) ]
              [ ("method", JStr "POST");
                ("body", JObj [("mode", JStr "raw"); ("raw", JStr "{}")]);
                ("description", JStr "Wrong password") ]
              [ ("mode", JStr "raw"); ("raw", JStr "{}") ]
              LOGIN_INVALID login_invalid_raw
              (or_intror (or_intror (or_introl eq_refl)))
              eq_refl eq_refl eq_refl eq_refl eq_refl eq_refl doc' Ht)
    as (d' & r' & b' & H1 & H2 & H3 & H4 & _ & _ & _ & _ & H5 & _).
  exists doc', d', r', b'. split; [exact Ht|]. repeat split; try assumption.
  now rewrite H5 by discriminate.
Defined.

(** X3. Whatever the name and whatever the request, the request branch
    either leaves the request as it is or changes a request dict with a
    body dict in this way only: the body keeps its keys and every value
    but the one under [raw]; the request keeps every value but those under
    [body] and [description], and its keys, with [description] added last
    where there was none. Method, url and headers are never touched. *)
Theorem request_patch_frame (name request request' : json) :
  patch_request name request = Ok request' ->
  request' = request \/
  exists r b r' b',
    request = JObj r /\ request' = JObj r' /\
    dict_get "body" r = Some (JObj b) /\
    dict_get "body" r' = Some (JObj b') /\
    keys b' = keys b /\
    (forall k, k <> "raw" -> dict_get k b' = dict_get k b) /\
    (forall k, k <> "body" -> k <> "description" ->
               dict_get k r' = dict_get k r) /\
    (keys r' = keys r \/
     dict_get "description" r = None /\
     keys r' = (keys r ++ ["description"])%list).
Proof.
  intros H. destruct (expected_raw name) as [raw|] eqn:He.
  - destruct (has_body_raw request) as [[]|e] eqn:Hc.
    + right.
      destruct (patch_request_assigned _ _ _ _ He Hc H)
        as (r & b & -> & Hb & Hr').
      rewrite (has_body_raw_body _ _ Hb) in Hc. injection Hc as Hraw.
      apply dict_has_true in Hraw. destruct Hraw as [v Hv].
      set (b' := dict_set "raw" (JStr raw) b) in *.
      set (r1 := dict_set "body" (JObj b') r) in *.
      assert (Hkb : keys b' = keys b)
        by apply (dict_set_keys_present _ _ _ _ Hv).
      assert (Hgb : forall k, k <> "raw" -> dict_get k b' = dict_get k b)
        by (intros k Hk; apply dict_get_set_other; congruence).
      assert (Hk1 : keys r1 = keys r)
        by apply (dict_set_keys_present _ _ _ _ Hb).
      assert (Hg1 : forall k, k <> "body" -> dict_get k r1 = dict_get k r)
        by (intros k Hk; apply dict_get_set_other; congruence).
      cbv zeta in Hr'. destruct Hr' as [-> | [_ ->]].
      * exists r, b, r1, b'. repeat split; auto.
        apply dict_get_set_same.
      * exists r, b. eexists. exists b'.
        split; [reflexivity|]. split; [reflexivity|]. split; [exact Hb|].
        split; [rewrite dict_get_set_other by discriminate;
                apply dict_get_set_same|].
        split; [exact Hkb|]. split; [exact Hgb|]. split.
        -- intros k Hk Hk'. rewrite dict_get_set_other by congruence. auto.
        -- rewrite dict_set_keys, Hk1. unfold dict_has.
           rewrite Hg1 by discriminate.
           destruct (dict_get "description" r); auto.
    + left. rewrite (patch_request_unmatched _ _ Hc) in H. congruence.
    + rewrite (patch_request_raises _ _ e) in H; [discriminate| |exact Hc].
      apply expected_raw_target. eauto.
  - left. rewrite patch_request_other in H; [congruence|].
    destruct (is_target name) eqn:Ht; [|reflexivity].
    apply expected_raw_target in Ht. destruct Ht as [raw Hraw]. congruence.
Qed.

Lemma request_patch_frame_sample :
  exists r',
    patch_request (JStr REGISTER_DUPLICATE)
      (JObj [ ("method", JStr "POST"); ("body", JObj [("raw", JStr "{}")]) ])
    = Ok (JObj r') /\
    keys r' = ["method"; "body"; "description"] /\
    dict_get "method" r' = Some (JStr "POST").
Proof.
  destruct (request_patch_frame
              (JStr REGISTER_DUPLICATE)
              (JObj [ ("method", JStr "POST");
                      ("body", JObj [("raw", JStr "{}")]) ])
              (JObj [ ("method", JStr "POST");
                      ("body", JObj [("raw", JStr register_duplicate_raw)]);
                      ("description",
                       JStr register_duplicate_description) ])
              eq_refl) as [Hsame | _].
  - discriminate Hsame.
  - eexists. split; [reflexivity|]. split; reflexivity.
Defined.

(** ** The shape of the walked tree *)

(** X4. The walker neither adds, removes, moves nor renames an item: a
    list of items comes back with the same length, and a path leads to an
    item afterwards exactly when it led to one before, which had the same
    name. *)
Theorem walk_keeps_tree_shape (items items' : list json) :
  update_requests (JArr items) = Ok (JArr items') ->
  length items' = length items /\
  forall p,
    (forall it, item_at p items = Some it ->
                exists it', item_at p items' = Some it' /\
                            name_of it' = name_of it) /\
    (forall it', item_at p items' = Some it' ->
                 exists it, item_at p items = Some it /\
                            name_of it' = name_of it).
Proof.
  intros H. apply update_requests_list_inv in H.
  destruct H as (l' & [= <-] & Hl).
  split; [apply (for_each_length _ _ _ Hl)|]. intros p. split.
  - intros it Hat. destruct (item_at_walked _ _ _ _ Hl Hat) as (it' & ? & Hv).
    exists it'. split; [assumption | now apply visit_name].
  - intros it' Hat.
    destruct (item_at_walked_back _ _ _ _ Hl Hat) as (it & ? & Hv).
    exists it. split; [assumption | now apply visit_name].
Qed.

Lemma walk_keeps_tree_shape_sample :
  length [ JObj folder_with_request ] = 1 /\
  exists it', item_at [0; 0]
                [ JObj [ ("name", JStr "Login - Success");
                         ("item", JArr [
                            JObj [
                              ("name", JStr "Login - Success");
                              ("request",
                               JObj [("body",
                                      JObj [("raw",
                                             JStr login_success_raw)])]) ] ]);
                         ("request",
                          JObj [("body", JObj [("raw", JStr "{}")])]) ] ]
              = Some it' /\
              name_of it' = JStr "Login - Success".
Proof.
  destruct (walk_keeps_tree_shape
              [ JObj folder_with_request ]
              [ JObj [ ("name", JStr "Login - Success");
                       ("item", JArr [
                          JObj [
                            ("name", JStr "Login - Success");
                            ("request",
                             JObj [("body",
                                    JObj [("raw",
                                           JStr login_success_raw)])]) ] ]);
                       ("request",
                        JObj [("body", JObj [("raw", JStr "{}")])]) ] ]
              eq_refl) as [Hlen Hpaths].
  split; [exact Hlen|].
  destruct (Hpaths [0; 0]) as [Hto _].
  exact (Hto _ eq_refl).
Defined.

(** X5. Wherever an item stands in the tree, the walker leaves it its keys,
    in their order, and every value that is not under [item] or
    [request]: an item's name, events and saved responses are never
    touched. *)
Theorem walk_keeps_item_keys
        (items items' : list json) (p : list nat) (d : dict) :
  update_requests (JArr items) = Ok (JArr items') ->
  item_at p items = Some (JObj d) ->
  exists d',
    item_at p items' = Some (JObj d') /\
    keys d' = keys d /\
    forall k, k <> "item" -> k <> "request" -> dict_get k d' = dict_get k d.
Proof.
  intros H Hat. apply update_requests_list_inv in H.
  destruct H as (l' & [= <-] & Hl).
  destruct (item_at_walked _ _ _ _ Hl Hat) as (it' & Hat' & Hv).
  destruct (visit_dict_shape _ _ Hv) as (d' & -> & Hk & Hg). eauto.
Qed.

Lemma walk_keeps_item_keys_sample :
  exists d',
    item_at [0]
      [ JObj [ ("name", JStr "Login - Success");
               ("request",
                JObj [("body", JObj [("raw", JStr login_success_raw)])]);
               ("response", JArr []) ] ]
    = Some (JObj d') /\
    keys d' = ["name"; "request"; "response"] /\
    dict_get "response" d' = Some (JArr []).
Proof.
  destruct (walk_keeps_item_keys
              [ JObj [ ("name", JStr "Login - Success");
                       ("request", JObj [("body", JObj [("raw", JStr "{}")])]);
                       ("response", JArr []) ] ]
              [ JObj [ ("name", JStr "Login - Success");
                       ("request",
                        JObj [("body",
                               JObj [("raw", JStr login_success_raw)])]);
                       ("response", JArr []) ] ]
              [0]
              [ ("name", JStr "Login - Success");
                ("request", JObj [("body", JObj [("raw", JStr "{}")])]);
                ("response", JArr []) ]
              eq_refl eq_refl) as (d' & Hat & Hk & Hg).
  exists d'. split; [exact Hat|]. split; [exact Hk|].
  now rewrite Hg by discriminate.
Defined.

(** X6. The script changes nothing of the collection but the list under
    [item]: the collection comes out with the keys it had, in their order,
    and with the value it had under every other key ([info], [variable],
    [auth] and the like). *)
Theorem transform_keeps_top_level (doc doc' : json) :
  transform doc = Ok doc' ->
  exists d d',
    doc = JObj d /\ doc' = JObj d' /\
    keys d' = keys d /\
    forall k, k <> "item" -> dict_get k d' = dict_get k d.
Proof.
  intros H. apply transform_inv in H.
  destruct H as (d & items & items' & -> & Hi & _ & ->).
  exists d. eexists. split; [reflexivity|]. split; [reflexivity|]. split.
  - apply (dict_set_keys_present _ _ _ _ Hi).
  - intros k Hk. apply dict_get_set_other. congruence.
Qed.

Lemma transform_keeps_top_level_sample :
  exists d',
    transform sample_collection = Ok (JObj d') /\
    keys d' = ["info"; "item"] /\
    dict_get "info" d' = Some (JObj [("name", JStr "Evero Healthcare API")]).
Proof.
  destruct (transform_total sample_collection eq_refl) as [doc' Ht].
  destruct (transform_keeps_top_level sample_collection doc' Ht)
    as (d & d' & Hd & -> & Hk & Hg).
  injection Hd as <-. exists d'. split; [exact Ht|]. split; [exact Hk|].
  now rewrite Hg by discriminate.
Defined.

(** ** When a request changes, and to what *)

(** X7. The walker changes a request item only if its name is one of the
    four and both tests of the guard hold of its request: under any other
    name, or with one of the tests failing, the item comes back as it
    was. *)
Theorem request_changed_only_when_patched (d : dict) (item' : json) :
  dict_get "item" d = None ->
  visit (JObj d) = Ok item' ->
  item' <> JObj d ->
  is_target (item_name d) = true /\
  exists request,
    dict_get "request" d = Some request /\ has_body_raw request = Ok true.
Proof.
  intros Hi Hv Hne. destruct (dict_get "request" d) as [r|] eqn:Hr.
  - destruct (is_target (item_name d)) eqn:Ht.
    + split; [reflexivity|]. exists r. split; [reflexivity|].
      destruct (has_body_raw r) as [[]|e] eqn:Hc; [reflexivity| |].
      * rewrite (visit_unpatched _ _ Hi Hr) in Hv
          by now apply patch_request_unmatched.
        congruence.
      * rewrite (visit_request _ _ Hi Hr) in Hv.
        rewrite (patch_request_raises _ _ e Ht Hc) in Hv. discriminate.
    + rewrite (visit_unpatched _ _ Hi Hr) in Hv
        by now apply patch_request_other.
      congruence.
  - rewrite (visit_plain _ Hi Hr) in Hv. congruence.
Qed.

Lemma request_changed_only_when_patched_sample :
  is_target (JStr "Login - Success") = true /\
  exists request,
    Some (JObj [("body", JObj [("raw", JStr "{}")])]) = Some request /\
    has_body_raw request = Ok true.
Proof.
  apply (request_changed_only_when_patched
           [ ("name", JStr "Login - Success");
             ("request", JObj [("body", JObj [("raw", JStr "{}")])]) ]
           (JObj [ ("name", JStr "Login - Success");
                   ("request",
                    JObj [("body",
                           JObj [("raw", JStr login_success_raw)])]) ])
           eq_refl eq_refl).
  discriminate.
Defined.



(** ** What the walker raises *)

Lemma py_in_raises (k : string) (v : json) (e : py_error) :
  py_in k v = Raise e -> e = TypeError.
Proof. destruct v; simpl; congruence. Qed.

Lemma patch_request_raises_TypeError (name request : json) (e : py_error) :
  patch_request name request = Raise e -> e = TypeError.
Proof.
  intros H. destruct (expected_raw name) as [raw|] eqn:He.
  - rewrite (patch_request_expected _ _ _ He) in H.
    unfold has_body_raw, set_body_raw in H.
    destruct request as [| | | |s|l|r]; try (simpl in H; congruence).
    + cbn [py_in bind] in H. destruct (str_contains "body" s);
        cbn [py_getitem bind] in H; congruence.
    + cbn [py_in bind] in H.
      destruct (existsb (fun x => py_eq_str x "body") l);
        cbn [py_getitem bind] in H; congruence.
    + cbn [py_in py_getitem bind] in H. unfold dict_has in H.
      destruct (dict_get "body" r) as [body|]; cbn [bind] in H;
        [|congruence].
      destruct (py_in "raw" body) as [[]|e'] eqn:Hin; cbn [bind] in H.
      * destruct body; try (cbn [py_setitem bind] in H; congruence).
        cbn [py_setitem bind] in H.
        repeat match type of H with
               | context [if ?c then _ else _] => destruct c
               end; simpl in H; congruence.
      * congruence.
      * injection H as <-. now apply py_in_raises in Hin.
  - rewrite patch_request_other in H; [discriminate|].
    destruct (is_target name) eqn:Ht; [|reflexivity].
    apply expected_raw_target in Ht. destruct Ht as [raw Hraw]. congruence.
Qed.

Lemma visit_other_raises (item : json) (e : py_error) :
  (forall d, item <> JObj d) -> visit_other item = Raise e -> e = TypeError.
Proof.
  intros Hd. unfold visit_other.
  destruct item as [| | | |s|l|d]; try (simpl; congruence).
  - cbn [py_in bind]. destruct (str_contains "item" s);
      cbn [py_getitem bind]; [congruence|].
    destruct (str_contains "request" s); cbn [py_getitem bind]; congruence.
  - cbn [py_in bind]. destruct (existsb (fun x => py_eq_str x "item") l);
      cbn [py_getitem bind]; [congruence|].
    destruct (existsb (fun x => py_eq_str x "request") l);
      cbn [py_getitem bind]; congruence.
  - now destruct (Hd d).
Qed.

Lemma for_each_raises (body : json -> result json) (l : list json)
      (e : py_error) :
  for_each body l = Raise e -> exists x, In x l /\ body x = Raise e.
Proof.
  induction l as [|x l IH]; [discriminate|].
  change (for_each body (x :: l)) with
    (x' <- body x ;; rest' <- for_each body l ;; Ok (x' :: rest')).
  destruct (body x) as [x'|e'] eqn:Hx; cbn [bind].
  - destruct (for_each body l) as [l'|e''] eqn:Hl; cbn [bind]; [discriminate|].
    intros [= ->]. destruct (IH eq_refl) as (y & Hy & He).
    exists y. split; [now right | exact He].
  - intros [= ->]. exists x. split; [now left | exact Hx].
Qed.

(** The walker raises [TypeError] and nothing else: it subscripts a dict
    only with a key it has found there. *)
Lemma walker_raises_TypeError (j : json) :
  (forall e, update_requests j = Raise e -> e = TypeError) /\
  (forall e, visit j = Raise e -> e = TypeError).
Proof.
  induction j as [| | | |s|l IH|d IH] using json_nested_ind;
    try (split; intros e H;
         [ simpl in H; congruence
         | apply (visit_other_raises _ e) in H; [exact H | intros ? [=]] ]).
  - split; intros e H.
    + change (update_requests (JStr s))
        with (l <- py_iter (JStr s) ;;
              _ <- for_each visit_other l ;; Ok (JStr s)) in H.
      cbn [py_iter bind] in H.
      destruct (for_each visit_other (chars s)) as [?|e'] eqn:Hl;
        [discriminate|].
      cbn [bind] in H. injection H as <-.
      apply for_each_raises in Hl. destruct Hl as (x & Hx & He).
      unfold chars in Hx. apply in_map_iff in Hx. destruct Hx as (c & <- & _).
      apply visit_other_raises in He; [exact He | intros ? [=]].
    + apply (visit_other_raises _ e) in H; [exact H | intros ? [=]].
  - split; intros e H.
    + rewrite update_requests_list in H.
      destruct (for_each visit l) as [?|e'] eqn:Hl; [discriminate|].
      cbn [bind] in H. injection H as <-.
      apply for_each_raises in Hl. destruct Hl as (x & Hx & He).
      rewrite Forall_forall in IH. destruct (IH x Hx) as [_ Hv]. auto.
    + apply (visit_other_raises _ e) in H; [exact H | intros ? [=]].
  - split; intros e H.
    + change (update_requests (JObj d))
        with (l <- py_iter (JObj d) ;;
              _ <- for_each visit_other l ;; Ok (JObj d)) in H.
      cbn [py_iter bind] in H.
      destruct (for_each visit_other (map (fun kv => JStr (fst kv)) d))
        as [?|e'] eqn:Hl; [discriminate|].
      cbn [bind] in H. injection H as <-.
      apply for_each_raises in Hl. destruct Hl as (x & Hx & He).
      apply in_map_iff in Hx. destruct Hx as (kv & <- & _).
      apply visit_other_raises in He; [exact He | intros ? [=]].
    + destruct (dict_get "item" d) as [v|] eqn:Hi.
      * rewrite (visit_folder _ _ Hi) in H.
        destruct (update_requests v) as [?|e'] eqn:Hu; [discriminate|].
        cbn [bind] in H. injection H as <-.
        destruct (dict_get_Forall
                    (fun x => (forall e, update_requests x = Raise e ->
                                         e = TypeError) /\
                              (forall e, visit x = Raise e -> e = TypeError))
                    _ _ _ IH Hi) as [Hv _].
        auto.
      * destruct (dict_get "request" d) as [r|] eqn:Hr.
        -- rewrite (visit_request _ _ Hi Hr) in H.
           destruct (patch_request (item_name d) r) as [?|e'] eqn:Hp;
             [discriminate|].
           cbn [bind] in H. injection H as <-.
           now apply patch_request_raises_TypeError in Hp.
        -- rewrite (visit_plain _ Hi Hr) in H. discriminate.
Qed.

Lemma Forall2_In_l {A B : Type} (R : A -> B -> Prop)
      (l : list A) (l' : list B) (x : A) :
  Forall2 R l l' -> In x l -> exists x', R x x'.
Proof.
  intros H Hx. apply In_nth_error in Hx. destruct Hx as [i Hi].
  destruct (Forall2_nth_error _ _ _ _ _ H Hi) as (x' & _ & Hr). eauto.
Qed.

(** ** The walker under the recursion limit *)

Lemma visit_with_unbounded (item : json) :
  visit item = visit_with update_requests item.
Proof. now destruct item. Qed.

Lemma field_nat_eq (k : string) (f : json -> nat) (d : dict) :
  field_nat k f d =
  match dict_get k d with
  | Some v => f v
  | None => 0
  end.
Proof.
  induction d as [|[k' v] d IH]; simpl; [reflexivity|].
  now destruct (String.eqb k' k).
Qed.

Lemma item_nesting_dict (d : dict) :
  item_nesting (JObj d) =
  match dict_get "item" d with
  | Some v => nesting v
  | None => 0
  end.
Proof.
  change (item_nesting (JObj d)) with (field_nat "item" nesting d).
  apply field_nat_eq.
Qed.

Lemma nesting_positive (j : json) : 1 <= nesting j.
Proof.
  destruct j; simpl; lia.
Qed.

Lemma for_each_ext (f g : json -> result json) (l : list json) :
  (forall x, In x l -> f x = g x) -> for_each f l = for_each g l.
Proof.
  induction l as [|x l IH]; intros H; [reflexivity|].
  change (for_each f (x :: l)) with
    (x' <- f x ;; rest' <- for_each f l ;; Ok (x' :: rest')).
  change (for_each g (x :: l)) with
    (x' <- g x ;; rest' <- for_each g l ;; Ok (x' :: rest')).
  rewrite (H x (or_introl eq_refl)), IH; [reflexivity|].
  intros y Hy. apply H. now right.
Qed.

Lemma for_each_limit_or_same (f g : json -> result json) (l : list json) :
  (forall x, f x = Raise RecursionError \/ f x = g x) ->
  for_each f l = Raise RecursionError \/ for_each f l = for_each g l.
Proof.
  intros H. induction l as [|x l IH]; [now right|].
  change (for_each f (x :: l)) with
    (x' <- f x ;; rest' <- for_each f l ;; Ok (x' :: rest')).
  change (for_each g (x :: l)) with
    (x' <- g x ;; rest' <- for_each g l ;; Ok (x' :: rest')).
  destruct (H x) as [Hx | Hx]; rewrite Hx; [now left|].
  destruct (g x) as [x'|e]; cbn [bind]; [|now right].
  destruct IH as [Hl | Hl]; rewrite Hl; [now left | now right].
Qed.

Lemma visit_with_agrees (f : json -> result json) (item : json) :
  (forall v, item_nesting item = nesting v -> f v = update_requests v) ->
  visit_with f item = visit item.
Proof.
  intros H. rewrite visit_with_unbounded.
  destruct item as [| | | | | |d]; try reflexivity.
  unfold visit_with. rewrite !mutate_field_eq.
  rewrite item_nesting_dict in H.
  destruct (dict_get "item" d) as [v|]; [|reflexivity].
  now rewrite (H v eq_refl).
Qed.

Lemma visit_with_limit_or_same (f : json -> result json) (item : json) :
  (forall v, f v = Raise RecursionError \/ f v = update_requests v) ->
  visit_with f item = Raise RecursionError \/ visit_with f item = visit item.
Proof.
  intros H. rewrite visit_with_unbounded.
  destruct item as [| | | | | |d]; try (now right).
  unfold visit_with. rewrite !mutate_field_eq.
  destruct (dict_has "item" d); [|now right].
  destruct (dict_get "item" d) as [v|]; [|now right].
  destruct (H v) as [Hv | Hv]; rewrite Hv; [now left | now right].
Qed.

(** The walker under the limit either runs out of frames or is the
    walker. *)
Lemma within_limit_or_same (limit : nat) :
  forall items,
    update_requests_within limit items = Raise RecursionError \/
    update_requests_within limit items = update_requests items.
Proof.
  induction limit as [|n IH]; intros items; [now left|].
  destruct items as [| | | | |l|]; try (now right).
  change (update_requests_within (S n) (JArr l)) with
    (l' <- for_each (visit_with (update_requests_within n)) l ;; Ok (JArr l')).
  rewrite update_requests_list.
  destruct (for_each_limit_or_same
              (visit_with (update_requests_within n)) visit l) as [Hl | Hl].
  - intros x. now apply visit_with_limit_or_same.
  - rewrite Hl. now left.
  - rewrite Hl. now right.
Qed.

(** With a frame for every level of folders the limit is not felt. *)
Lemma within_nesting (limit : nat) :
  forall items,
    nesting items <= limit ->
    update_requests_within limit items = update_requests items.
Proof.
  induction limit as [|n IH]; intros items H.
  - pose proof (nesting_positive items). lia.
  - destruct items as [| | | | |l|]; try reflexivity.
    change (update_requests_within (S n) (JArr l)) with
      (l' <- for_each (visit_with (update_requests_within n)) l ;;
       Ok (JArr l')).
    rewrite update_requests_list. f_equal.
    change (nesting (JArr l)) with (S (list_max (map item_nesting l))) in H.
    assert (Hmax : list_max (map item_nesting l) <= n) by lia.
    apply list_max_le in Hmax. rewrite Forall_forall in Hmax.
    apply for_each_ext. intros x Hx. apply visit_with_agrees.
    intros v Hv. apply IH. rewrite <- Hv. apply Hmax.
    apply in_map_iff. eauto.
Qed.

Lemma within_raises (limit : nat) (items : json) (e : py_error) :
  update_requests_within limit items = Raise e ->
  e = TypeError \/ (e = RecursionError /\ limit < nesting items).
Proof.
  intros H. destruct (within_limit_or_same limit items) as [Hr | Hs].
  - right. split; [congruence|].
    destruct (Nat.le_gt_cases (nesting items) limit) as [Hle | Hgt];
      [|exact Hgt].
    rewrite (within_nesting _ _ Hle) in Hr.
    apply (proj1 (walker_raises_TypeError items)) in Hr. discriminate.
  - left. rewrite Hs in H.
    now apply (proj1 (walker_raises_TypeError items)).
Qed.

(** X9. The walker raises [TypeError], or [RecursionError] when the folders
    nest deeper than the recursion limit allows, and no other exception;
    in particular never [KeyError], since it subscripts a dict only with a
    key it has just found there. *)
Theorem walker_exceptions (limit : nat) (items : json) (e : py_error) :
  update_requests_within limit items = Raise e ->
  e = TypeError \/ (e = RecursionError /\ limit < nesting items).
Proof. apply within_raises. Qed.

Lemma walker_exceptions_sample :
  1 < nesting (JArr [ JObj [("name", JStr "Users"); ("item", JArr [])] ]).
Proof.
  destruct (walker_exceptions
              1 (JArr [ JObj [("name", JStr "Users"); ("item", JArr [])] ])
              RecursionError eq_refl) as [H | [_ H]].
  - discriminate H.
  - exact H.
Defined.

(** ** When the script finishes, and how it fails *)

(** X10. The script gets past the walk and the insertion exactly on a
    collection that is a dict whose [item] is a list the walker finishes
    on; the collection it then dumps is the one it loaded with the folder
    and the walked items under [item]. *)
Theorem transform_finishes_iff (doc doc' : json) :
  transform doc = Ok doc' <->
  exists d items items',
    doc = JObj d /\ dict_get "item" d = Some (JArr items) /\
    update_requests (JArr items) = Ok (JArr items') /\
    doc' = JObj (dict_set "item" (JArr (seeded_data_folder :: items')) d).
Proof.
  split.
  - intros H. apply transform_inv in H.
    destruct H as (d & items & items' & -> & Hi & Hl & ->).
    exists d, items, items'. repeat split; try assumption.
    now rewrite update_requests_list, Hl.
  - intros (d & items & items' & -> & Hi & Hu & ->).
    apply update_requests_list_inv in Hu. destruct Hu as (l' & [= <-] & Hl).
    exact (transform_items _ _ _ Hi Hl).
Qed.

(** X11. The four ways the script's own steps fail between load and dump.
    [KeyError]: the collection is a dict with no key [item]. [TypeError]:
    the collection is no dict, or the walker raised it. [AttributeError]:
    the value under [item] is no list, the walker went through it without
    changing it, and [insert] is missing. [RecursionError]: the folders
    nest deeper than the recursion limit allows. *)
Theorem transform_error_kinds (limit : nat) (doc : json) (e : py_error) :
  transform_within limit doc = Raise e ->
  (e = KeyError /\ exists d, doc = JObj d /\ dict_get "item" d = None) \/
  (e = TypeError /\
   ((forall d, doc <> JObj d) \/
    exists d v, doc = JObj d /\ dict_get "item" d = Some v /\
                update_requests_within limit v = Raise TypeError)) \/
  (e = AttributeError /\
   exists d v, doc = JObj d /\ dict_get "item" d = Some v /\
               (forall l, v <> JArr l) /\
               update_requests_within limit v = Ok v) \/
  (e = RecursionError /\
   exists d v, doc = JObj d /\ dict_get "item" d = Some v /\
               limit < nesting v /\
               update_requests_within limit v = Raise RecursionError).
Proof.
  unfold transform_within. intros H.
  destruct doc as [| | | | | |d];
    try (right; left; split; [simpl in H; congruence | left; intros ? [=]]).
  cbn [py_getitem] in H. destruct (dict_get "item" d) as [v|] eqn:Hi.
  - cbn [bind] in H.
    destruct (update_requests_within limit v) as [v'|e'] eqn:Hu.
    + cbn [bind] in H. right. right. left.
      destruct (within_limit_or_same limit v) as [Hr | Hs]; [congruence|].
      rewrite Hu in Hs. symmetry in Hs.
      destruct v as [| | | | |l|];
        try (pose proof Hs as Hsame;
             apply update_requests_other in Hsame; [|intros ? [=]]; subst v';
             simpl in H; split; [congruence|];
             eexists; eexists; repeat split; try eassumption; intros ? [=]).
      apply update_requests_list_inv in Hs. destruct Hs as (l' & -> & _).
      discriminate H.
    + cbn [bind] in H. injection H as <-.
      destruct (within_raises _ _ _ Hu) as [-> | [-> Hdeep]].
      * right. left. split; [reflexivity|]. right. eauto.
      * right. right. right. split; [reflexivity|]. eauto 6.
  - cbn [bind] in H. left. split; [congruence | eauto].
Qed.

Lemma transform_error_kinds_sample :
  transform_within 5 (JObj [("info", JObj []); ("item", JStr "none")])
  = Raise AttributeError.
Proof.
  assert (H : exists e,
             transform_within
               5 (JObj [("info", JObj []); ("item", JStr "none")])
             = Raise e) by (eexists; reflexivity).
  destruct H as [e He]. rewrite He.
  destruct (transform_error_kinds _ _ e He)
    as [(_ & d & Hd & Hi)
       | [(_ & [Hd | (d & v & Hd & Hi & Hu)])
         | [(-> & _) | (_ & d & v & Hd & Hi & _ & Hu)]]].
  - injection Hd as <-. discriminate Hi.
  - destruct (Hd _ eq_refl).
  - injection Hd as <-. injection Hi as <-. discriminate Hu.
  - reflexivity.
  - injection Hd as <-. injection Hi as <-. discriminate Hu.
Defined.

(** X12. A list of items that holds [null], a boolean or a number
    anywhere makes the walker raise [TypeError]: the walker's first test,
    ['item' in item], has no meaning on such a value. *)
Theorem scalar_item_raises (l : list json) (x : json) :
  In x l -> is_scalar x = true -> update_requests (JArr l) = Raise TypeError.
Proof.
  intros Hx Hs. rewrite update_requests_list.
  destruct (for_each visit l) as [l'|e] eqn:Hl.
  - apply for_each_Forall2 in Hl.
    destruct (Forall2_In_l _ _ _ _ Hl Hx) as [x' Hv].
    destruct x; discriminate.
  - cbn [bind]. f_equal.
    apply (proj1 (walker_raises_TypeError (JArr l))).
    now rewrite update_requests_list, Hl.
Qed.

Lemma scalar_item_raises_sample :
  update_requests
    (JArr [ JObj [("name", JStr "Health Check")]; JNull ])
  = Raise TypeError.
Proof.
  apply (scalar_item_raises _ JNull); [right; left; reflexivity | reflexivity].
Defined.

(** X13. Handed something that is no list, the walker iterates it as
    Python does and changes nothing. A string passes: its characters are
    too short to hold a key. A dict passes unless one of its keys has
    [item] or [request] in it, which raises [TypeError]. [null], a boolean
    or a number raises [TypeError]. *)
Theorem walk_of_what_is_no_list :
  (forall s, update_requests (JStr s) = Ok (JStr s)) /\
  (forall d,
     update_requests (JObj d)
     = if existsb mentions_walker_key (keys d) then Raise TypeError
       else Ok (JObj d)) /\
  (forall v, is_scalar v = true -> update_requests v = Raise TypeError).
Proof.
  split; [|split].
  - intros s.
    change (update_requests (JStr s))
      with (l <- py_iter (JStr s) ;;
            _ <- for_each visit_other l ;; Ok (JStr s)).
    cbn [py_iter bind]. unfold chars.
    rewrite <- (map_map (fun c => String c EmptyString) JStr).
    now rewrite for_each_strings, characters_mention_nothing.
  - intros d.
    change (update_requests (JObj d))
      with (l <- py_iter (JObj d) ;;
            _ <- for_each visit_other l ;; Ok (JObj d)).
    cbn [py_iter bind]. rewrite <- (map_map fst JStr).
    fold (keys d). rewrite for_each_strings.
    now destruct (existsb mentions_walker_key (keys d)).
  - intros v Hs. destruct v; try discriminate; reflexivity.
Qed.

(** ** The run, end to end *)

Lemma transform_within_nesting (limit : nat) (d : dict) (items : json) :
  dict_get "item" d = Some items ->
  nesting items <= limit ->
  transform_within limit (JObj d) = transform (JObj d).
Proof.
  intros Hi Hn. unfold transform_within, transform. cbn [py_getitem].
  rewrite Hi. cbn [bind]. now rewrite (within_nesting _ _ Hn).
Qed.

(** X14. Take a file that can be read and written and whose text loads as
    a well-formed collection with folders nested no deeper than the
    recursion limit allows. The script gets to the dump, and the file is
    left with what the dump wrote: if an exception cuts the dump short the
    run ends with it, the file holding the text written so far; if the dump
    goes through, the run prints the four status lines and raises nothing
    on a standard output that can encode the check mark, and on one that
    cannot it raises [UnicodeEncodeError] with nothing printed and the
    file already rewritten. *)
Theorem run_on_well_formed_file
        (load : string -> result json)
        (dump : json -> string * option py_error)
        (limit : nat) (text : string) (collection : json)
        (items : list json) :
  load text = Ok collection ->
  well_formed_document collection = true ->
  items_of collection = Some items ->
  nesting (JArr items) <= limit ->
  exists collection' items',
    transform_within limit collection = Ok collection' /\
    items_of collection' = Some (seeded_data_folder :: items') /\
    (forall out e,
       dump collection' = (out, Some e) ->
       forall encodes,
         run_within load dump limit encodes (Present true true text)
         = {| file_after := Present true true out; stdout := [];
              raised := Some e |}) /\
    (forall out,
       dump collection' = (out, None) ->
       run_within load dump limit true (Present true true text)
       = {| file_after := Present true true out; stdout := status_lines;
            raised := None |} /\
       run_within load dump limit false (Present true true text)
       = {| file_after := Present true true out; stdout := [];
            raised := Some UnicodeEncodeError |}).
Proof.
  intros Hload Hwf Hitems Hn.
  destruct (transform_total _ Hwf) as [collection' Ht].
  apply items_of_inv in Hitems. destruct Hitems as (d & -> & Hi).
  rewrite <- (transform_within_nesting limit _ _ Hi Hn) in Ht.
  pose proof Ht as Hinv.
  rewrite (transform_within_nesting limit _ _ Hi Hn) in Hinv.
  apply transform_inv in Hinv.
  destruct Hinv as (d0 & items0 & items' & [= <-] & _ & _ & Hout).
  exists collection', items'. split; [exact Ht|]. split.
  - rewrite Hout. simpl. now rewrite dict_get_set_same.
  - split.
    + intros out e Hd encodes. unfold run_within. cbn [read_file].
      rewrite Hload, Ht. cbn [write_file]. now rewrite Hd.
    + intros out Hd. unfold run_within. cbn [read_file].
      rewrite Hload, Ht. cbn [write_file]. rewrite Hd. split; reflexivity.
Qed.

Lemma run_on_well_formed_file_sample :
  exists collection',
    run_within sample_load sample_dump 3 true (Present true true "sample")
    = {| file_after := Present true true (sample_dumps collection');
         stdout := status_lines; raised := None |} /\
    run_within sample_load sample_dump 3 false (Present true true "sample")
    = {| file_after := Present true true (sample_dumps collection');
         stdout := []; raised := Some UnicodeEncodeError |}.
Proof.
  destruct (run_on_well_formed_file
              sample_load sample_dump 3 "sample" sample_collection
              [ JObj [
                  ("name", JStr "Users");
                  ("item", JArr [
                    JObj [
                      ("name", JStr "Register User - Success");
                      ("request", JObj [
                        ("method", JStr "POST");
                        ("body", JObj [("mode", JStr "raw");
                                       ("raw", JStr "{}")])
                      ]);
                      ("response", JArr [])
                    ];
                    JObj [
                      ("name", JStr "Register User - Duplicate ID");
                      ("request", JObj [
                        ("method", JStr "POST");
                        ("body", JObj [("mode", JStr "raw");
                                       ("raw", JStr "{}")]);
                        ("description", JStr "Register twice")
                      ]);
                      ("response", JArr [])
                    ];
                    JObj [
                      ("name", JStr "Login - Success");
                      ("request", JObj [("method", JStr "POST")]);
                      ("response", JArr [])
                    ];
                    JObj [
                      ("name", JStr "Get Current User");
                      ("request", JObj [
                        ("method", JStr "GET");
                        ("body", JObj [("mode", JStr "raw");
                                       ("raw", JStr "{}")])
                      ]);
                      ("response", JArr [])
                    ]
                  ])
                ];
                JObj [
                  ("name", JStr "Health Check");
                  ("request", JObj [("method", JStr "GET")]);
                  ("response", JArr [])
                ] ]
              eq_refl eq_refl eq_refl ltac:(vm_compute; lia))
    as (collection' & items' & _ & _ & _ & Hrun).
  exists collection'. exact (Hrun _ eq_refl).
Defined.

(** ** Requests and bodies that are no dicts *)

(** X15. Under one of the four names, a request dict whose body is there
    but is no dict is never patched. When the body is [null], a boolean or
    a number the test for [raw] raises [TypeError]; when it is a list or a
    string in which [raw] is found the assignment raises [TypeError];
    otherwise the item is left as it is. *)
Theorem body_that_is_no_dict (d r : dict) (body : json) :
  is_request d = true ->
  is_target (item_name d) = true ->
  dict_get "request" d = Some (JObj r) ->
  dict_get "body" r = Some body ->
  (forall b, body <> JObj b) ->
  visit (JObj d)
  = match py_in "raw" body with
    | Ok false => Ok (JObj d)
    | _ => Raise TypeError
    end.
Proof.
  intros Hreq Ht Hr Hb Hno. destruct (is_request_inv _ Hreq) as [Hi _].
  apply expected_raw_target in Ht. destruct Ht as [raw Hraw].
  rewrite (visit_request _ _ Hi Hr), (patch_request_expected _ _ _ Hraw).
  unfold has_body_raw, set_body_raw. cbn [py_in py_getitem bind].
  unfold dict_has. rewrite Hb. cbn [bind].
  destruct body as [| | | |s|l|b]; try reflexivity.
  - cbn [py_in bind]. destruct (str_contains "raw" s); cbn [bind].
    + reflexivity.
    + now rewrite (dict_set_get _ _ _ Hr).
  - cbn [py_in bind].
    destruct (existsb (fun x => py_eq_str x "raw") l); cbn [bind].
    + reflexivity.
    + now rewrite (dict_set_get _ _ _ Hr).
  - now destruct (Hno b).
Qed.

Lemma body_that_is_no_dict_sample :
  visit (JObj [ ("name", JStr "Register User - Success");
                ("request", JObj [("method", JStr "POST"); ("body", JNull)]) ])
  = Raise TypeError.
Proof.
  apply (body_that_is_no_dict
           [ ("name", JStr "Register User - Success");
             ("request", JObj [("method", JStr "POST"); ("body", JNull)]) ]
           [ ("method", JStr "POST"); ("body", JNull) ]
           JNull eq_refl eq_refl eq_refl eq_refl).
  intros b. discriminate.
Defined.

(** X16. Under one of the four names, a request that is no dict is never
    patched. When it is [null], a boolean or a number the test for [body]
    raises [TypeError]; when it is a list or a string in which [body] is
    found the subscript [request['body']] raises [TypeError]; otherwise,
    as for a request given as a URL without [body] in it, the item is
    left as it is. *)
Theorem request_that_is_no_dict (d : dict) (request : json) :
  is_request d = true ->
  is_target (item_name d) = true ->
  dict_get "request" d = Some request ->
  (forall r, request <> JObj r) ->
  visit (JObj d)
  = match py_in "body" request with
    | Ok false => Ok (JObj d)
    | _ => Raise TypeError
    end.
Proof.
  intros Hreq Ht Hr Hno. destruct (is_request_inv _ Hreq) as [Hi _].
  apply expected_raw_target in Ht. destruct Ht as [raw Hraw].
  rewrite (visit_request _ _ Hi Hr), (patch_request_expected _ _ _ Hraw).
  unfold has_body_raw.
  destruct request as [| | | |s|l|r]; try reflexivity.
  - cbn [py_in bind]. destruct (str_contains "body" s); cbn [bind].
    + reflexivity.
    + now rewrite (dict_set_get _ _ _ Hr).
  - cbn [py_in bind].
    destruct (existsb (fun x => py_eq_str x "body") l); cbn [bind].
    + reflexivity.
    + now rewrite (dict_set_get _ _ _ Hr).
  - now destruct (Hno r).
Qed.

Lemma request_that_is_no_dict_sample :
  visit (JObj [ ("name", JStr "Login - Success");
                ("request", JStr "{{base_url}}/api/users/_login") ])
  = Ok (JObj [ ("name", JStr "Login - Success");
               ("request", JStr "{{base_url}}/api/users/_login") ]).
Proof.
  apply (request_that_is_no_dict
           [ ("name", JStr "Login - Success");
             ("request", JStr "{{base_url}}/api/users/_login") ]
           (JStr "{{base_url}}/api/users/_login")
           eq_refl eq_refl eq_refl).
  intros r. discriminate.
Defined.
